(** * The escrow lifecycle client of the XMR-ETH atomic swap, embedded in Rocq

    The development follows the Go packages of the repository:

    - [ethereum/oneinch/escrow_integration.go]: [SwapParams], the client
      [XMREscrowClient] with its constructor [NewXMREscrowClient], the signing
      context [getAuth], the address resolver [calculateEscrowAddress], and the
      operations [CreateSwap], [ClaimSwap], [RefundSwap], [GetSwapState];
    - the client initialiser [InitializeEscrowClient] of the same package;
    - [common/escrow.go]: the two loaders of the escrow addresses.

    Calls into go-ethereum that reach the node are events of a small free
    monad [Net]; an environment answers them and a history records them.
    go-ethereum's pure functions (ABI coding, key handling) form the interface
    [GoEthereum], over which the package is parameterised. *)

From Stdlib Require Import ZArith Lia List.
From Stdlib.Strings Require Import Byte Ascii String.
From stdpp Require Import base strings gmap.

Open Scope Z_scope.

(** ** Go values *)

(** Go's [[]byte]. *)
Abbreviation bytes := (list Byte.byte).

(** Go's predeclared [error], as far as this program can tell its values apart.
    The first eleven constructors are the package-level sentinel values of
    package oneinch (escrow_integration.go, lines 23-35); each is a distinct
    value created once by errors.New.  [ErrorsNew] and [FmtErrorf] are errors
    built on the spot by the package's own code, [FmtErrorfW] wraps an error
    with the verb %w, and [Foreign] is any error value produced outside the
    package (the RPC transport, the node, the abi and bind layers). *)
Inductive error : Type :=
| ErrInvalidAddress
| ErrTransactionFailed
| ErrContractNotFound
| ErrInvalidSwapParams
| ErrInsufficientFunds
| ErrSwapAlreadyExists
| ErrSwapDoesNotExist
| ErrInvalidSwapState
| ErrInvalidSecret
| ErrTimeoutNotReached
| ErrTimeoutExceeded
| ErrorsNew (msg : string)
| FmtErrorf (msg : string)
| FmtErrorfW (msg : string) (wrapped : error)
| Foreign (msg : string).

(** The outcome [(v, err)] of a callee whose value the caller reads only when
    [err == nil]. *)
Inductive result (A : Type) : Type :=
| Ok (v : A)
| Err (e : error).
Arguments Ok {A} v.
Arguments Err {A} e.

Definition is_Ok {A} (r : result A) : bool :=
  match r with Ok _ => true | Err _ => false end.

(** The error of an outcome, nil ([None]) when there is a value. *)
Definition err_of_result {A : Type} (r : result A) : option error :=
  match r with Err e => Some e | Ok _ => None end.

(** The sub-variants of the spec's ContractRevertError, among the sentinels
    of the package. *)
Definition isContractRevertError (e : error) : bool :=
  match e with
  | ErrInvalidSecret | ErrInvalidSwapState | ErrTimeoutNotReached
  | ErrTimeoutExceeded | ErrSwapAlreadyExists | ErrSwapDoesNotExist
  | ErrInsufficientFunds => true
  | _ => false
  end.

Definition byte_of_Z (z : Z) : byte :=
  match Byte.of_N (Z.to_N (z mod 256)) with Some b => b | None => x00 end.

Definition Z_of_byte (b : byte) : Z := Z.of_N (Byte.to_N b).

(** The big-endian number held by a byte slice. *)
Definition be_value (bs : bytes) : Z :=
  fold_left (fun acc b => 256 * acc + Z_of_byte b) bs 0.

(** Conversion [int64(x)] of an unsigned 64-bit value: the bit pattern is kept
    and read in two's complement. *)
Definition int64 (x : Z) : Z := (x + 2 ^ 63) mod 2 ^ 64 - 2 ^ 63.

(** Conversion [uint64(x)]. *)
Definition uint64 (x : Z) : Z := x mod 2 ^ 64.

(** ** go-ethereum: package common (imported as ethcommon in escrow.go) *)
Module ethcommon.

(** [common.Address] is [[20]byte]; it is held as the 160-bit number whose
    big-endian bytes are the array. *)
Definition Address : Type := Z.

Definition AddressLength : Z := 20.

(** The composite literal [common.Address{}]. *)
Definition zero : Address := 0.

Definition is_zero (a : Address) : bool := a =? zero.

(** [has0xPrefix]: the string starts with 0x or 0X. *)
Definition has0xPrefix (s : string) : bool :=
  match s with
  | String c0 (String c1 _) =>
      Ascii.eqb c0 "0"%char && (Ascii.eqb c1 "x"%char || Ascii.eqb c1 "X"%char)
  | _ => false
  end.

Definition strip0x (s : string) : string :=
  if has0xPrefix s then String.substring 2 (String.length s - 2)%nat s else s.

(** The value of a hexadecimal digit, [None] for any other character. *)
Definition hexval (c : ascii) : option Z :=
  let n := Z.of_N (Ascii.N_of_ascii c) in
  if (48 <=? n) && (n <=? 57) then Some (n - 48)
  else if (97 <=? n) && (n <=? 102) then Some (n - 87)
  else if (65 <=? n) && (n <=? 70) then Some (n - 55)
  else None.

Definition isHexCharacter (c : ascii) : bool :=
  match hexval c with Some _ => true | None => false end.

Fixpoint all_hex (s : string) : bool :=
  match s with
  | EmptyString => true
  | String c s' => isHexCharacter c && all_hex s'
  end.

(** [isHex]: even length and only hexadecimal digits. *)
Definition isHex (s : string) : bool :=
  (Z.of_nat (String.length s) mod 2 =? 0) && all_hex s.

(** [IsHexAddress]: after an optional 0x or 0X, exactly forty hexadecimal
    digits. *)
Definition IsHexAddress (s : string) : bool :=
  let s := strip0x s in
  (Z.of_nat (String.length s) =? 2 * AddressLength) && isHex s.

(** [hex.DecodeString] with its error dropped, as [Hex2Bytes] does: the bytes
    decoded before the first character that is no digit (or before a trailing
    half pair). *)
Fixpoint decode_pairs (s : string) : bytes :=
  match s with
  | String a (String b s') =>
      match hexval a, hexval b with
      | Some x, Some y => byte_of_Z (16 * x + y) :: decode_pairs s'
      | _, _ => []
      end
  | _ => []
  end.

(** [FromHex]: strip the prefix, pad an odd number of digits with a leading
    zero digit, decode. *)
Definition FromHex (s : string) : bytes :=
  let s := strip0x s in
  let s := if Z.of_nat (String.length s) mod 2 =? 1 then String "0"%char s else s in
  decode_pairs s.

(** [BytesToAddress]: the last twenty bytes, right-aligned. *)
Definition BytesToAddress (bs : bytes) : Address :=
  be_value bs mod 2 ^ (8 * AddressLength).

Definition HexToAddress (s : string) : Address := BytesToAddress (FromHex s).

End ethcommon.


(** [[32]byte], held as the 256-bit number whose big-endian bytes are the
    array. *)
Definition Bytes32 : Type := Z.

(** What [*ecdsa.PrivateKey] points to: the secret scalar and the two
    coordinates of the public point. *)
Record ecdsa_PrivateKey : Type := { key_D : Z; key_X : Z; key_Y : Z }.

(** ** go-ethereum: packages ethclient, ethereum, types, bind, abi *)

(** What [*ethclient.Client] points to: the connection to one node. *)
Record ethclient_Client : Type := { rawurl : string }.

Module ethereum.
(** [ethereum.CallMsg], the two fields the program sets. *)
Record CallMsg : Type := { To : ethcommon.Address; Data : bytes }.
End ethereum.

Module types.
(** [types.Transaction] as handed back by the bind layer once the node has
    accepted the broadcast. *)
Record Transaction : Type := {
  tx_from : ethcommon.Address;
  tx_to : ethcommon.Address;
  tx_nonce : Z;
  tx_gasPrice : Z;
  tx_gas : Z;
  tx_value : Z;
  tx_data : bytes
}.
End types.

Module bind.
(** [bind.TransactOpts].  The three [*big.Int] fields may be nil ([None]);
    [Signer] stands for the signing closure and records the key and the
    chain id it is bound to. *)
Record TransactOpts : Type := {
  From : ethcommon.Address;
  Nonce : option Z;
  Signer : ecdsa_PrivateKey * Z;
  Value : option Z;
  GasPrice : option Z;
  GasLimit : Z
}.
End bind.

Module abi.
(** The Go values the program hands to [Pack], by their Go type. *)
Inductive Arg : Type :=
| address (a : ethcommon.Address)
| bytes32 (b : Bytes32)
| bigInt (n : Z).

(** The Solidity types named in the three ABI documents. *)
Inductive Ty : Type := Taddress | Tbytes32 | Tuint256 | Tuint8.

Inductive Mutability : Type := nonpayable | payable | view.

(** One function entry of an ABI document: name, inputs as (name, type)
    pairs, output types, state mutability. *)
Record Entry : Type := {
  name : string;
  inputs : list (string * Ty);
  outputs : list Ty;
  stateMutability : Mutability
}.



End abi.

(** The functions of go-ethereum that the package calls and that do not reach
    the node.  They are not part of this repository; the package is modelled
    over any implementation of them. *)
Record GoEthereum : Type := {
  (** [abi.ABI] *)
  ABI : Type;
  (** [abi.JSON], applied to an ABI document *)
  abi_JSON : list abi.Entry -> result ABI;
  (** [(abi.ABI).Pack] *)
  abi_Pack : ABI -> string -> list abi.Arg -> result bytes;
  (** [(abi.ABI).UnpackIntoInterface] into a [common.Address] *)
  abi_UnpackAddress : ABI -> string -> bytes -> result ethcommon.Address;
  (** [(abi.ABI).UnpackIntoInterface] into a [uint8] *)
  abi_UnpackUint8 : ABI -> string -> bytes -> result Z;
  (** [crypto.PubkeyToAddress] of the key's public half *)
  crypto_PubkeyToAddress : ecdsa_PrivateKey -> ethcommon.Address;
  (** [bind.NewKeyedTransactorWithChainID] *)
  bind_NewKeyedTransactorWithChainID :
    ecdsa_PrivateKey -> Z -> result bind.TransactOpts
}.

(** ** Calls that reach the node *)
Section Network.
Context {abiT : Type}.

(** The calls of the program into the node, each with the type of its answer:
    the four reads of [ethclient.Client] and the method [Transact] of a
    [bind.BoundContract] bound to an address and an ABI. *)
Inductive NetCall : Type -> Type :=
| PendingNonceAt (account : ethcommon.Address) : NetCall (result Z)
| SuggestGasPrice : NetCall (result Z)
| ChainID : NetCall (result Z)
| CallContract (msg : ethereum.CallMsg) : NetCall (result bytes)
| Transact (contract : ethcommon.Address) (a : abiT) (opts : bind.TransactOpts)
    (method : string) (args : list abi.Arg) : NetCall (result types.Transaction).

(** A program over the node: it returns, or makes a call and goes on with the
    answer. *)
Inductive Net (A : Type) : Type :=
| Ret (a : A)
| Call {X : Type} (c : NetCall X) (k : X -> Net A).
#[global] Arguments Ret {A} a.
#[global] Arguments Call {A X} c k.

Fixpoint bind {A B : Type} (m : Net A) (f : A -> Net B) : Net B :=
  match m with
  | Ret a => f a
  | Call c k => Call c (fun x => bind (k x) f)
  end.

Definition call {X : Type} (c : NetCall X) : Net X := Call c Ret.

(** The record of one call, as kept in the history. *)
Inductive Event : Type :=
| EvPendingNonceAt (account : ethcommon.Address)
| EvSuggestGasPrice
| EvChainID
| EvCallContract (msg : ethereum.CallMsg)
| EvTransact (contract : ethcommon.Address) (a : abiT) (opts : bind.TransactOpts)
    (method : string) (args : list abi.Arg).

Definition event_of {X : Type} (c : NetCall X) : Event :=
  match c with
  | PendingNonceAt a => EvPendingNonceAt a
  | SuggestGasPrice => EvSuggestGasPrice
  | ChainID => EvChainID
  | CallContract msg => EvCallContract msg
  | Transact t a o m args => EvTransact t a o m args
  end.

Definition is_transact (e : Event) : bool :=
  match e with EvTransact _ _ _ _ _ => true | _ => false end.

(** The environment: what the node (with the RPC transport and the bind layer
    in front of it) answers to each call, given the calls made so far. *)
Record Node : Type := {
  nd_PendingNonceAt : list Event -> ethcommon.Address -> result Z;
  nd_SuggestGasPrice : list Event -> result Z;
  nd_ChainID : list Event -> result Z;
  nd_CallContract : list Event -> ethereum.CallMsg -> result bytes;
  nd_Transact : list Event -> ethcommon.Address -> abiT -> bind.TransactOpts ->
                string -> list abi.Arg -> result types.Transaction
}.

Definition answer (nd : Node) (h : list Event) {X : Type} (c : NetCall X) : X :=
  match c in NetCall X return X with
  | PendingNonceAt a => nd_PendingNonceAt nd h a
  | SuggestGasPrice => nd_SuggestGasPrice nd h
  | ChainID => nd_ChainID nd h
  | CallContract msg => nd_CallContract nd h msg
  | Transact t a o m args => nd_Transact nd h t a o m args
  end.

(** Running a program against a node from a history: its value and the
    history extended by the calls it made, in order. *)
Fixpoint run {A : Type} (nd : Node) (h : list Event) (m : Net A) : A * list Event :=
  match m with
  | Ret a => (a, h)
  | Call c k => run nd (h ++ [event_of c]) (k (answer nd h c))
  end.

(** The calls a program makes when run from a history, in order. *)
Fixpoint emitted {A : Type} (nd : Node) (h : list Event) (m : Net A) : list Event :=
  match m with
  | Ret _ => []
  | Call c k => event_of c :: emitted nd (h ++ [event_of c]) (k (answer nd h c))
  end.

(** The answer of the node to the transaction an event records. *)
Definition answerTo (nd : Node) (h : list Event) (e : Event) : result types.Transaction :=
  match e with
  | EvTransact t a o m args => nd_Transact nd h t a o m args
  | _ => Err (Foreign "not a transaction")
  end.

(** A small program logic, independent of the node: every call the program
    can make satisfies [P], and every value it can return satisfies [Q]. *)
Inductive Sat (P : Event -> Prop) {A : Type} (Q : A -> Prop) : Net A -> Prop :=
| SatRet (a : A) : Q a -> Sat P Q (Ret a)
| SatCall {X : Type} (c : NetCall X) (k : X -> Net A) :
    P (event_of c) -> (forall x, Sat P Q (k x)) -> Sat P Q (Call c k).

(** The event is no transaction, or a transaction sent with value [v] and gas
    limit [g]. *)
Definition sends_with (v g : Z) (e : Event) : Prop :=
  match e with
  | EvTransact _ _ opts _ _ => bind.Value opts = Some v /\ bind.GasLimit opts = g
  | _ => True
  end.

(** The event is no transaction, or a transaction signed with the nonce
    [n]. *)
Definition signed_with_nonce (n : Z) (e : Event) : Prop :=
  match e with
  | EvTransact _ _ opts _ _ => bind.Nonce opts = Some n
  | _ => True
  end.

(** Calls that are no transaction, at most [n] of them, followed by at most
    one transaction. *)
Definition submits_last (n : nat) (calls : list Event) : Prop :=
  exists pre tail,
    calls = pre ++ tail /\
    Forall (fun e => is_transact e = false) pre /\
    (List.length pre <= n)%nat /\
    (tail = [] \/ exists e, tail = [e] /\ is_transact e = true).

(** The error of an answer, if the answer is one. *)
Definition failure {X : Type} (c : NetCall X) : X -> option error :=
  match c in NetCall X return X -> option error with
  | PendingNonceAt _ => fun r => match r with Err e => Some e | Ok _ => None end
  | SuggestGasPrice => fun r => match r with Err e => Some e | Ok _ => None end
  | ChainID => fun r => match r with Err e => Some e | Ok _ => None end
  | CallContract _ => fun r => match r with Err e => Some e | Ok _ => None end
  | Transact _ _ _ _ _ => fun r => match r with Err e => Some e | Ok _ => None end
  end.

(** The program stops at the first call that fails: whatever call it makes,
    if the answer is an error it returns at once, a value that carries this
    error according to [err_of]. *)
Inductive StopsAtFailure {A : Type} (err_of : A -> option error) : Net A -> Prop :=
| StopsRet (a : A) : StopsAtFailure err_of (Ret a)
| StopsCall {X : Type} (c : NetCall X) (k : X -> Net A) :
    (forall x e, failure c x = Some e -> exists a, k x = Ret a /\ err_of a = Some e) ->
    (forall x, StopsAtFailure err_of (k x)) ->
    StopsAtFailure err_of (Call c k).

End Network.

Arguments NetCall abiT X : clear implicits.
Arguments Net abiT A : clear implicits.
Arguments Event abiT : clear implicits.
Arguments Node abiT : clear implicits.
Arguments Build_Node abiT _ _ _ _ _ : clear implicits.

Declare Scope net_scope.
Delimit Scope net_scope with net.
Notation "'let*' x ':=' m 'in' k" := (bind m (fun x => k))
  (at level 10, x pattern, m at level 100, k at level 200) : net_scope.

(** ** The repository's packages outside the sources at hand *)

Module contracts.
(** What [*contracts.SwapCreator] points to: the binding of the deployed swap
    registry. *)
Record SwapCreator : Type := { registry : ethcommon.Address }.

(** Modelled from the spec: the generated binding [contracts.SwapCreatorSwap]
    (the on-chain swap record) is not among the sources.  The record has the
    seven fields that [ConvertSwapCreatorSwapToParams] reads, which are the
    seven the spec lists for the round trip: claimer, both commitments, both
    timeouts, asset, value. *)
Record SwapCreatorSwap : Type := {
  Claimer : ethcommon.Address;
  ClaimCommitment : Bytes32;
  RefundCommitment : Bytes32;
  Timeout1 : Z;
  Timeout2 : Z;
  Asset : ethcommon.Address;
  Value : Z
}.
End contracts.

Module extethclient.
(** A non-nil value of the interface [extethclient.EthClient], by what the
    two methods that the program calls return. *)
Record EthClient : Type := {
  Raw : option ethclient_Client;
  PrivateKey : option ecdsa_PrivateKey
}.
End extethclient.

(** ** Package oneinch *)
Module oneinch.

(** [SwapParams] (escrow_integration.go, lines 38-46): a plain struct.  The
    three [*big.Int] fields are held by the number they point to: parameters
    with a nil pointer among them, such as the zero value [SwapParams{}], are
    not values of this type, and nothing below speaks of them. *)
Record SwapParams : Type := {
  Claimer : ethcommon.Address;
  ClaimCommitment : Bytes32;
  RefundCommitment : Bytes32;
  Timeout1 : Z;
  Timeout2 : Z;
  Asset : ethcommon.Address;
  Value : Z
}.

(** The three ABI documents embedded in the loaders (lines 303-412), entry by
    entry. *)
Definition swapInputs (withAdapter : bool) : list (string * abi.Ty) :=
  (if withAdapter then [("_adapter"%string, abi.Taddress)] else []) ++
  [("_claimer"%string, abi.Taddress);
   ("_claimCommitment"%string, abi.Tbytes32);
   ("_refundCommitment"%string, abi.Tbytes32);
   ("_timeout1"%string, abi.Tuint256);
   ("_timeout2"%string, abi.Tuint256);
   ("_asset"%string, abi.Taddress);
   ("_value"%string, abi.Tuint256)].

Definition escrowSrcABIJSON : list abi.Entry :=
  [ {| abi.name := "withdraw"; abi.inputs := [("_secret"%string, abi.Tbytes32)];
       abi.outputs := []; abi.stateMutability := abi.nonpayable |};
    {| abi.name := "refund"; abi.inputs := [("_refundKey"%string, abi.Tbytes32)];
       abi.outputs := []; abi.stateMutability := abi.nonpayable |};
    {| abi.name := "getState"; abi.inputs := [];
       abi.outputs := [abi.Tuint8]; abi.stateMutability := abi.view |} ].

Definition escrowFactoryABIJSON : list abi.Entry :=
  [ {| abi.name := "calculateEscrowAddress"; abi.inputs := swapInputs true;
       abi.outputs := [abi.Taddress]; abi.stateMutability := abi.view |};
    {| abi.name := "deposit"; abi.inputs := swapInputs true;
       abi.outputs := [abi.Taddress]; abi.stateMutability := abi.payable |} ].

Definition swapAdapterABIJSON : list abi.Entry :=
  [ {| abi.name := "createSwap"; abi.inputs := swapInputs false;
       abi.outputs := []; abi.stateMutability := abi.payable |};
    {| abi.name := "claimSwap"; abi.inputs := [("_secret"%string, abi.Tbytes32)];
       abi.outputs := []; abi.stateMutability := abi.nonpayable |};
    {| abi.name := "refundSwap"; abi.inputs := [("_refundKey"%string, abi.Tbytes32)];
       abi.outputs := []; abi.stateMutability := abi.nonpayable |} ].

(** [ConvertSwapCreatorSwapToParams] (lines 291-301). *)
Definition ConvertSwapCreatorSwapToParams (swap : contracts.SwapCreatorSwap) : SwapParams :=
  {| Claimer := contracts.Claimer swap;
     ClaimCommitment := contracts.ClaimCommitment swap;
     RefundCommitment := contracts.RefundCommitment swap;
     Timeout1 := contracts.Timeout1 swap;
     Timeout2 := contracts.Timeout2 swap;
     Asset := contracts.Asset swap;
     Value := contracts.Value swap |}.

(** Modelled from the spec: the conversion back, from [SwapParams] to the
    on-chain swap record, is not in the sources; the spec's round trip names
    it.  It copies the same seven fields. *)
Definition ConvertParamsToSwapCreatorSwap (params : SwapParams) : contracts.SwapCreatorSwap :=
  {| contracts.Claimer := Claimer params;
     contracts.ClaimCommitment := ClaimCommitment params;
     contracts.RefundCommitment := RefundCommitment params;
     contracts.Timeout1 := Timeout1 params;
     contracts.Timeout2 := Timeout2 params;
     contracts.Asset := Asset params;
     contracts.Value := Value params |}.

(** The interface [EscrowBackend], by what its methods return; [Ctx] returns
    the context, which [InitializeEscrowClient] receives and does not use. *)
Record EscrowBackend : Type := {
  ETHClient : extethclient.EthClient;
  SwapCreator : option contracts.SwapCreator;
  EscrowFactoryAddr : ethcommon.Address;
  EscrowAdapterAddr : ethcommon.Address
}.

Section Package.
Context (G : GoEthereum).
Local Open Scope net_scope.

(** [XMREscrowClient] (lines 49-60), as the constructor leaves it: the three
    pointers are not nil. *)
Record XMREscrowClient : Type := {
  client : ethclient_Client;
  factoryAddress : ethcommon.Address;
  adapterAddress : ethcommon.Address;
  swapCreator : contracts.SwapCreator;
  privateKey : ecdsa_PrivateKey;
  escrowSrcABI : ABI G;
  escrowFactoryABI : ABI G;
  swapAdapterABI : ABI G
}.

Definition loadEscrowSrcABI : result (ABI G) := abi_JSON G escrowSrcABIJSON.
Definition loadEscrowFactoryABI : result (ABI G) := abi_JSON G escrowFactoryABIJSON.
Definition loadSwapAdapterABI : result (ABI G) := abi_JSON G swapAdapterABIJSON.

(** [NewXMREscrowClient] (lines 63-116).  A nil pointer argument is [None]. *)
Definition NewXMREscrowClient
    (client : option ethclient_Client)
    (swapCreator : option contracts.SwapCreator)
    (factoryAddress adapterAddress : ethcommon.Address)
    (privateKey : option ecdsa_PrivateKey) : result XMREscrowClient :=
  match client with
  | None => Err (ErrorsNew "ethclient is required")
  | Some client =>
  match swapCreator with
  | None => Err (ErrorsNew "swap creator is required")
  | Some swapCreator =>
  match privateKey with
  | None => Err (ErrorsNew "private key is required")
  | Some privateKey =>
  if ethcommon.is_zero factoryAddress then Err (ErrorsNew "factory address is required")
  else if ethcommon.is_zero adapterAddress then Err (ErrorsNew "adapter address is required")
  else
  match loadEscrowSrcABI with
  | Err err => Err err
  | Ok escrowSrcABI =>
  match loadEscrowFactoryABI with
  | Err err => Err err
  | Ok escrowFactoryABI =>
  match loadSwapAdapterABI with
  | Err err => Err err
  | Ok swapAdapterABI =>
      Ok {| client := client;
            swapCreator := swapCreator;
            factoryAddress := factoryAddress;
            adapterAddress := adapterAddress;
            privateKey := privateKey;
            escrowSrcABI := escrowSrcABI;
            escrowFactoryABI := escrowFactoryABI;
            swapAdapterABI := swapAdapterABI |}
  end end end end end end.

(** [InitializeEscrowClient]: the checks in the order of the source, then the
    constructor, its error wrapped. *)
Definition InitializeEscrowClient
    (ethClient : extethclient.EthClient)
    (swapCreator : option contracts.SwapCreator)
    (factoryAddr adapterAddr : ethcommon.Address) : result XMREscrowClient :=
  if ethcommon.is_zero factoryAddr then Err (FmtErrorf "escrow factory address is required")
  else if ethcommon.is_zero adapterAddr then Err (FmtErrorf "escrow adapter address is required")
  else
  match swapCreator with
  | None => Err (FmtErrorf "swap creator is required")
  | Some _ =>
  let rawClient := extethclient.Raw ethClient in
  match rawClient with
  | None => Err (FmtErrorf "failed to get raw ethclient")
  | Some _ =>
  let privateKey := extethclient.PrivateKey ethClient in
  match privateKey with
  | None => Err (FmtErrorf "failed to get private key from ethclient")
  | Some _ =>
  match NewXMREscrowClient rawClient swapCreator factoryAddr adapterAddr privateKey with
  | Err err => Err (FmtErrorfW "failed to create escrow client: " err)
  | Ok escrowClient => Ok escrowClient
  end end end end.

(** [getAuth] (lines 119-146).  The three reads go to the node in this order;
    the nonce, a [uint64], enters [big.NewInt] through [int64]. *)
Definition getAuth (c : XMREscrowClient) : Net (ABI G) (result bind.TransactOpts) :=
  let* r := call (PendingNonceAt (crypto_PubkeyToAddress G (privateKey c))) in
  match r with
  | Err err => Ret (Err err)
  | Ok nonce =>
  let* r := call SuggestGasPrice in
  match r with
  | Err err => Ret (Err err)
  | Ok gasPrice =>
  let* r := call ChainID in
  match r with
  | Err err => Ret (Err err)
  | Ok chainID =>
  match bind_NewKeyedTransactorWithChainID G (privateKey c) chainID with
  | Err err => Ret (Err err)
  | Ok auth =>
      Ret (Ok {| bind.From := bind.From auth;
                 bind.Signer := bind.Signer auth;
                 bind.Nonce := Some (int64 nonce);
                 bind.Value := Some 0;
                 bind.GasLimit := uint64 300000;
                 bind.GasPrice := Some gasPrice |})
  end end end end.

(** The context that [getAuth] returns for a nonce, a gas price and the
    transactor of the bind layer. *)
Definition authOf (nonce gasPrice : Z) (auth : bind.TransactOpts) : bind.TransactOpts :=
  {| bind.From := bind.From auth;
     bind.Signer := bind.Signer auth;
     bind.Nonce := Some (int64 nonce);
     bind.Value := Some 0;
     bind.GasLimit := 300000;
     bind.GasPrice := Some gasPrice |}.

(** The argument list shared by the two factory methods: the adapter address,
    then the seven fields of the parameters. *)
Definition factoryArgs (c : XMREscrowClient) (params : SwapParams) : list abi.Arg :=
  [ abi.address (adapterAddress c);
    abi.address (Claimer params);
    abi.bytes32 (ClaimCommitment params);
    abi.bytes32 (RefundCommitment params);
    abi.bigInt (Timeout1 params);
    abi.bigInt (Timeout2 params);
    abi.address (Asset params);
    abi.bigInt (Value params) ].

(** [calculateEscrowAddress] (lines 149-183). *)
Definition calculateEscrowAddress (c : XMREscrowClient) (params : SwapParams)
  : Net (ABI G) (ethcommon.Address * option error) :=
  match abi_Pack G (escrowFactoryABI c) "calculateEscrowAddress" (factoryArgs c params) with
  | Err err => Ret (ethcommon.zero, Some err)
  | Ok data =>
  let callMsg := {| ethereum.To := factoryAddress c; ethereum.Data := data |} in
  let* r := call (CallContract callMsg) in
  match r with
  | Err err => Ret (ethcommon.zero, Some err)
  | Ok result =>
  match abi_UnpackAddress G (escrowFactoryABI c) "calculateEscrowAddress" result with
  | Err err => Ret (ethcommon.zero, Some err)
  | Ok escrowAddress => Ret (escrowAddress, None)
  end end end.

(** The assignment [auth.Value = params.Value]. *)
Definition setValue (auth : bind.TransactOpts) (v : Z) : bind.TransactOpts :=
  {| bind.From := bind.From auth;
     bind.Nonce := bind.Nonce auth;
     bind.Signer := bind.Signer auth;
     bind.Value := Some v;
     bind.GasPrice := bind.GasPrice auth;
     bind.GasLimit := bind.GasLimit auth |}.

(** [CreateSwap] (lines 186-221); the result is the Go triple, a nil
    transaction being [None]. *)
Definition CreateSwap (c : XMREscrowClient) (params : SwapParams)
  : Net (ABI G) (option types.Transaction * ethcommon.Address * option error) :=
  let* r := getAuth c in
  match r with
  | Err err => Ret (None, ethcommon.zero, Some err)
  | Ok auth =>
  let auth := if ethcommon.is_zero (Asset params) then setValue auth (Value params) else auth in
  let* (escrowAddress, err) := calculateEscrowAddress c params in
  match err with
  | Some err => Ret (None, ethcommon.zero, Some err)
  | None =>
  let* r := call (Transact (factoryAddress c) (escrowFactoryABI c) auth "deposit"
                    (factoryArgs c params)) in
  match r with
  | Err err => Ret (None, ethcommon.zero, Some err)
  | Ok tx => Ret (Some tx, escrowAddress, None)
  end end end.

(** The record of the deposit that [CreateSwap] submits when [getAuth] has
    returned [auth]. *)
Definition depositEvent (c : XMREscrowClient) (params : SwapParams)
    (auth : bind.TransactOpts) : Event (ABI G) :=
  EvTransact (factoryAddress c) (escrowFactoryABI c)
    (if ethcommon.is_zero (Asset params) then setValue auth (Value params) else auth)
    "deposit" (factoryArgs c params).

(** [ClaimSwap] (lines 224-240). *)
Definition ClaimSwap (c : XMREscrowClient) (escrowAddress : ethcommon.Address)
    (secret : Bytes32) : Net (ABI G) (result types.Transaction) :=
  let* r := getAuth c in
  match r with
  | Err err => Ret (Err err)
  | Ok auth =>
  let* r := call (Transact escrowAddress (escrowSrcABI c) auth "withdraw"
                    [abi.bytes32 secret]) in
  match r with
  | Err err => Ret (Err err)
  | Ok tx => Ret (Ok tx)
  end end.

(** [RefundSwap] (lines 243-259). *)
Definition RefundSwap (c : XMREscrowClient) (escrowAddress : ethcommon.Address)
    (refundKey : Bytes32) : Net (ABI G) (result types.Transaction) :=
  let* r := getAuth c in
  match r with
  | Err err => Ret (Err err)
  | Ok auth =>
  let* r := call (Transact escrowAddress (escrowSrcABI c) auth "refund"
                    [abi.bytes32 refundKey]) in
  match r with
  | Err err => Ret (Err err)
  | Ok tx => Ret (Ok tx)
  end end.

(** [GetSwapState] (lines 262-288): the [uint8] and the error of the Go
    pair.  The read is made through [c.client] (line 275), as are the reads
    and the transactions of the other operations: the node that a program is
    run on stands for the node behind that handle. *)
Definition GetSwapState (c : XMREscrowClient) (escrowAddress : ethcommon.Address)
  : Net (ABI G) (Z * option error) :=
  match abi_Pack G (escrowSrcABI c) "getState" [] with
  | Err err => Ret (0, Some err)
  | Ok data =>
  let callMsg := {| ethereum.To := escrowAddress; ethereum.Data := data |} in
  let* r := call (CallContract callMsg) in
  match r with
  | Err err => Ret (0, Some err)
  | Ok result =>
  match abi_UnpackUint8 G (escrowSrcABI c) "getState" result with
  | Err err => Ret (0, Some err)
  | Ok state => Ret (state, None)
  end end end.

(** [CreateEscrowClientFromBackend]. *)
Definition CreateEscrowClientFromBackend (backend : EscrowBackend)
  : result XMREscrowClient :=
  InitializeEscrowClient
    (ETHClient backend)
    (SwapCreator backend)
    (EscrowFactoryAddr backend)
    (EscrowAdapterAddr backend).

End Package.
End oneinch.

(** ** Package common: escrow.go *)
Module common.

Definition escrowFactoryEnvVar : string := "ESCROW_FACTORY_ADDRESS".
Definition escrowAdapterEnvVar : string := "ESCROW_ADAPTER_ADDRESS".

(** [os.Getenv] over the process environment: the empty string when the
    variable is not set. *)
Definition Getenv (env : gmap string string) (key : string) : string :=
  default EmptyString (env !! key).

Definition is_empty (s : string) : bool :=
  match s with EmptyString => true | _ => false end.

(** The step that both halves of the loader share: prepend 0x unless the
    string starts with it ([strings.HasPrefix] is case sensitive). *)
Definition ensure0x (s : string) : string :=
  if negb (String.prefix "0x" s) then ("0x" ++ s)%string else s.

Definition errNotSet (var : string) : error :=
  FmtErrorf (var ++ " environment variable not set").

Definition errFormat (var addrStr : string) : error :=
  FmtErrorf ("invalid ethereum address format for " ++ var ++ ": " ++ addrStr).

(** [GetEscrowAddressesFromEnv] (lines 21-57), the Go triple. *)
Definition GetEscrowAddressesFromEnv (env : gmap string string)
  : ethcommon.Address * ethcommon.Address * option error :=
  let factoryAddrStr := Getenv env escrowFactoryEnvVar in
  if is_empty factoryAddrStr
  then (ethcommon.zero, ethcommon.zero, Some (errNotSet escrowFactoryEnvVar))
  else
  let factoryAddrStr := ensure0x factoryAddrStr in
  if negb (ethcommon.IsHexAddress factoryAddrStr)
  then (ethcommon.zero, ethcommon.zero, Some (errFormat escrowFactoryEnvVar factoryAddrStr))
  else
  let factoryAddr := ethcommon.HexToAddress factoryAddrStr in
  let adapterAddrStr := Getenv env escrowAdapterEnvVar in
  if is_empty adapterAddrStr
  then (ethcommon.zero, ethcommon.zero, Some (errNotSet escrowAdapterEnvVar))
  else
  let adapterAddrStr := ensure0x adapterAddrStr in
  if negb (ethcommon.IsHexAddress adapterAddrStr)
  then (ethcommon.zero, ethcommon.zero, Some (errFormat escrowAdapterEnvVar adapterAddrStr))
  else
  let adapterAddr := ethcommon.HexToAddress adapterAddrStr in
  (factoryAddr, adapterAddr, None).

(** [GetEscrowAddressesWithFallback] (lines 61-68). *)
Definition GetEscrowAddressesWithFallback (env : gmap string string)
  : ethcommon.Address * ethcommon.Address :=
  let '(factoryAddr, adapterAddr, err) := GetEscrowAddressesFromEnv env in
  match err with
  | Some _ => (ethcommon.zero, ethcommon.zero)
  | None => (factoryAddr, adapterAddr)
  end.

End common.

(** ** Package backend: escrow.go *)
Module backend.
Section Backend.
Context (G : GoEthereum).

(** The struct [backend] is declared in another file of the package, which is
    not among the sources; of its fields the two methods below read
    [escrowClient], a pointer that may be nil. *)
Record backend : Type := {
  escrowClient : option (oneinch.XMREscrowClient G)
}.

(** [EscrowClient] (lines 12-18). *)
Definition EscrowClient (b : backend) : result (oneinch.XMREscrowClient G) :=
  match escrowClient b with
  | None =>
      Err (FmtErrorf "escrow client not initialized, escrow addresses may not be configured")
  | Some c => Ok c
  end.

(** [HasEscrowClient] (lines 20-23). *)
Definition HasEscrowClient (b : backend) : bool :=
  match escrowClient b with
  | None => false
  | Some _ => true
  end.

End Backend.
End backend.

(** ** A reference implementation of the go-ethereum interface

    Used for the concrete runs below.  It follows go-ethereum for the values
    that occur in this program: method identifiers are the first four bytes
    of the Keccak-256 digest of the signature, static arguments are packed as
    32-byte big-endian words, and an account address is the last twenty bytes
    of the digest of the public point. *)

Module keccak.
(** Keccak-f[1600] on 25 lanes of 64 bits (lane (x, y) at index x + 5y) and
    the sponge with rate 136 and the original padding, over byte values. *)
Definition mask64 : Z := 2 ^ 64 - 1.

Definition rotl64 (x n : Z) : Z :=
  Z.lor (Z.land (Z.shiftl x n) mask64) (Z.shiftr x (64 - n)).

Definition lane (st : list Z) (x y : Z) : Z :=
  nth (Z.to_nat (x mod 5 + 5 * (y mod 5))) st 0.

Definition grid (f : Z -> Z -> Z) : list Z :=
  map (fun i => f (Z.of_nat i mod 5) (Z.of_nat i / 5)) (seq 0 25).

Definition column (st : list Z) (x : Z) : Z :=
  fold_left Z.lxor (map (lane st x) [0; 1; 2; 3; 4]) 0.

Definition theta (st : list Z) : list Z :=
  grid (fun x y =>
    Z.lxor (lane st x y)
      (Z.lxor (column st (x + 4)) (rotl64 (column st (x + 1)) 1))).

Definition offsets : list Z :=
  [ 0; 1; 62; 28; 27;
    36; 44; 6; 55; 20;
    3; 10; 43; 25; 39;
    41; 45; 15; 21; 8;
    18; 2; 61; 56; 14 ].

Definition rho_pi (st : list Z) : list Z :=
  grid (fun x' y' =>
    let x := (x' + 3 * y') mod 5 in
    rotl64 (lane st x x') (lane offsets x x')).

Definition chi (st : list Z) : list Z :=
  grid (fun x y =>
    Z.lxor (lane st x y)
      (Z.land (Z.lxor (lane st (x + 1) y) mask64) (lane st (x + 2) y))).

Definition round_constants : list Z :=
  [ 0x0000000000000001; 0x0000000000008082; 0x800000000000808A;
    0x8000000080008000; 0x000000000000808B; 0x0000000080000001;
    0x8000000080008081; 0x8000000000008009; 0x000000000000008A;
    0x0000000000000088; 0x0000000080008009; 0x000000008000000A;
    0x000000008000808B; 0x800000000000008B; 0x8000000000008089;
    0x8000000000008003; 0x8000000000008002; 0x8000000000000080;
    0x000000000000800A; 0x800000008000000A; 0x8000000080008081;
    0x8000000000008080; 0x0000000080000001; 0x8000000080008008 ].

Definition iota (rc : Z) (st : list Z) : list Z :=
  match st with a :: st' => Z.lxor a rc :: st' | [] => [] end.

Definition permute (st : list Z) : list Z :=
  fold_left (fun st rc => iota rc (chi (rho_pi (theta st)))) round_constants st.

Definition le_value (bs : list Z) : Z :=
  fold_right (fun b acc => b + 256 * acc) 0 bs.

Fixpoint le_bytes (n : nat) (v : Z) : list Z :=
  match n with O => [] | S n' => (v mod 256) :: le_bytes n' (v / 256) end.

Fixpoint chunks (n fuel : nat) (bs : list Z) : list (list Z) :=
  match fuel with
  | O => []
  | S fuel' =>
      match bs with
      | [] => []
      | _ => firstn n bs :: chunks n fuel' (skipn n bs)
      end
  end.

Definition rate : nat := 136.

Definition pad (msg : list Z) : list Z :=
  let q := (rate - (List.length msg mod rate))%nat in
  if (q =? 1)%nat then msg ++ [0x81]
  else msg ++ [0x01] ++ repeat 0 (q - 2)%nat ++ [0x80].

Definition absorb (st block : list Z) : list Z :=
  let lanes := map le_value (chunks 8 17 block) ++ repeat 0 8%nat in
  permute (map (fun p => Z.lxor (fst p) (snd p)) (combine st lanes)).

Definition sum256 (msg : bytes) : bytes :=
  let p := pad (map Z_of_byte msg) in
  let st := fold_left absorb (chunks rate (List.length p) p) (repeat 0 25%nat) in
  map byte_of_Z (List.concat (map (le_bytes 8) (firstn 4 st))).
End keccak.

Module geth.

Definition bytes_of_string (s : string) : bytes :=
  map (fun a => byte_of_Z (Z.of_N (Ascii.N_of_ascii a))) (list_ascii_of_string s).

(** The [n] low bytes of [v], big-endian. *)
Fixpoint be_bytes (n : nat) (v : Z) : bytes :=
  match n with
  | O => []
  | S n' => be_bytes n' (v / 256) ++ [byte_of_Z v]
  end.

(** One 32-byte word; a number is reduced to 256 bits as [math.U256] does. *)
Definition word32 (v : Z) : bytes := be_bytes 32 (v mod 2 ^ 256).

Definition ty_name (t : abi.Ty) : string :=
  match t with
  | abi.Taddress => "address"
  | abi.Tbytes32 => "bytes32"
  | abi.Tuint256 => "uint256"
  | abi.Tuint8 => "uint8"
  end.

Fixpoint commas (l : list string) : string :=
  match l with
  | [] => EmptyString
  | [x] => x
  | x :: l' => (x ++ "," ++ commas l')%string
  end.

(** [abi.Method]: name, input and output types, signature and identifier. *)
Record Method : Type := {
  Name : string;
  Inputs : list abi.Ty;
  Outputs : list abi.Ty;
  Sig : string;
  ID : bytes
}.

Definition NewMethod (e : abi.Entry) : Method :=
  let ins := map snd (abi.inputs e) in
  let sig := (abi.name e ++ "(" ++ commas (map ty_name ins) ++ ")")%string in
  {| Name := abi.name e;
     Inputs := ins;
     Outputs := abi.outputs e;
     Sig := sig;
     ID := firstn 4 (keccak.sum256 (bytes_of_string sig)) |}.

Definition JSON (doc : list abi.Entry) : result (list Method) :=
  Ok (map NewMethod doc).

Definition lookup_method (a : list Method) (name : string) : option Method :=
  find (fun m => String.eqb (Name m) name) a.

Definition packElement (t : abi.Ty) (v : abi.Arg) : result bytes :=
  match t, v with
  | abi.Taddress, abi.address x => Ok (word32 (x mod 2 ^ 160))
  | abi.Tbytes32, abi.bytes32 b => Ok (word32 b)
  | abi.Tuint256, abi.bigInt n => Ok (word32 n)
  | _, _ => Err (Foreign "abi: cannot use value as argument of this type")
  end.

Fixpoint packArgs (ts : list abi.Ty) (vs : list abi.Arg) : result bytes :=
  match ts, vs with
  | [], [] => Ok []
  | t :: ts', v :: vs' =>
      match packElement t v with
      | Err e => Err e
      | Ok w =>
          match packArgs ts' vs' with
          | Err e => Err e
          | Ok ws => Ok (w ++ ws)
          end
      end
  | _, _ => Err (Foreign "argument count mismatch")
  end.

Definition Pack (a : list Method) (name : string) (args : list abi.Arg) : result bytes :=
  match lookup_method a name with
  | None => Err (Foreign "method not found")
  | Some m =>
      match packArgs (Inputs m) args with
      | Err e => Err e
      | Ok body => Ok (ID m ++ body)
      end
  end.

(** The first word of the reply of a method with a single output, and the
    output's type.  A reply whose length is not a multiple of 32 is refused
    before anything is read. *)
Definition unpackWord (a : list Method) (name : string) (data : bytes)
  : result (abi.Ty * Z) :=
  match lookup_method a name with
  | None => Err (Foreign "abi: could not locate named method or event")
  | Some m =>
      if negb (List.length data mod 32 =? 0)%nat
      then Err (Foreign "abi: improperly formatted output")
      else
      match Outputs m with
      | [t] =>
          if (List.length data =? 0)%nat
          then Err (Foreign "abi: attempting to unmarshall an empty string while arguments are expected")
          else if (List.length data <? 32)%nat
          then Err (Foreign "abi: cannot marshal in to go type: length insufficient")
          else Ok (t, be_value (firstn 32 data))
      | _ => Err (Foreign "abi: cannot unmarshal in to a single value")
      end
  end.

Definition UnpackAddress (a : list Method) (name : string) (data : bytes)
  : result ethcommon.Address :=
  match unpackWord a name data with
  | Err e => Err e
  | Ok (abi.Taddress, w) => Ok (w mod 2 ^ 160)
  | Ok _ => Err (Foreign "abi: cannot unmarshal in to common.Address")
  end.

Definition UnpackUint8 (a : list Method) (name : string) (data : bytes) : result Z :=
  match unpackWord a name data with
  | Err e => Err e
  | Ok (abi.Tuint8, w) =>
      if w <=? 255 then Ok w else Err (Foreign "abi: improperly encoded uint8 value")
  | Ok _ => Err (Foreign "abi: cannot unmarshal in to uint8")
  end.

Definition PubkeyToAddress (key : ecdsa_PrivateKey) : ethcommon.Address :=
  be_value (keccak.sum256 (word32 (key_X key) ++ word32 (key_Y key))) mod 2 ^ 160.

Definition NewKeyedTransactorWithChainID (key : ecdsa_PrivateKey) (chainID : Z)
  : result bind.TransactOpts :=
  Ok {| bind.From := PubkeyToAddress key;
        bind.Nonce := None;
        bind.Signer := (key, chainID);
        bind.Value := None;
        bind.GasPrice := None;
        bind.GasLimit := 0 |}.

Definition lib : GoEthereum :=
  {| ABI := list Method;
     abi_JSON := JSON;
     abi_Pack := Pack;
     abi_UnpackAddress := UnpackAddress;
     abi_UnpackUint8 := UnpackUint8;
     crypto_PubkeyToAddress := PubkeyToAddress;
     bind_NewKeyedTransactorWithChainID := NewKeyedTransactorWithChainID |}.

End geth.


(** ** A simulated node for the reference implementation

    The node of a development chain, configured by what it answers to each
    read and by whether it accepts transactions.  Its bind layer packs the
    call and fills the transaction from the options, as
    [bind.BoundContract.Transact] does when gas price, gas limit and nonce
    are given.  A transaction with a negative value cannot be encoded and is
    refused with an error before it reaches the node. *)
Module devnet.

Record Config : Type := {
  pendingNonce : result Z;
  gasPrice : result Z;
  chainID : result Z;
  callReply : ethereum.CallMsg -> result bytes;
  sendError : option error
}.

Definition transact (cfg : Config) (contract : ethcommon.Address)
    (a : list geth.Method) (opts : bind.TransactOpts) (method : string)
    (args : list abi.Arg) : result types.Transaction :=
  match geth.Pack a method args with
  | Err e => Err e
  | Ok input =>
      if default 0 (bind.Value opts) <? 0
      then Err (Foreign "rlp: cannot encode negative big.Int")
      else
      match sendError cfg with
      | Some e => Err e
      | None =>
          Ok {| types.tx_from := bind.From opts;
                types.tx_to := contract;
                types.tx_nonce := Z.abs (default 0 (bind.Nonce opts)) mod 2 ^ 64;
                types.tx_gasPrice := default 0 (bind.GasPrice opts);
                types.tx_gas := bind.GasLimit opts;
                types.tx_value := default 0 (bind.Value opts);
                types.tx_data := input |}
      end
  end.

Definition node (cfg : Config) : Node (list geth.Method) :=
  Build_Node (list geth.Method)
    (fun _ _ => pendingNonce cfg)
    (fun _ => gasPrice cfg)
    (fun _ => chainID cfg)
    (fun _ msg => callReply cfg msg)
    (fun _ => transact cfg).

(** A factory that derives the escrow address from the call data, and an
    escrow that reports the state code [code]. *)
Definition reply (code : Z) (msg : ethereum.CallMsg) : result bytes :=
  if (List.length (ethereum.Data msg) =? 4)%nat
  then Ok (geth.word32 code)
  else Ok (geth.word32 (be_value (keccak.sum256 (ethereum.Data msg)) mod 2 ^ 160)).

Definition healthy (code : Z) : Config :=
  {| pendingNonce := Ok 7;
     gasPrice := Ok 1000000000;
     chainID := Ok 1337;
     callReply := reply code;
     sendError := None |}.

(** A node on which the escrow rejects every call. *)
Definition reverting : Config :=
  {| pendingNonce := Ok 7;
     gasPrice := Ok 1000000000;
     chainID := Ok 1337;
     callReply := reply 1;
     sendError := Some (Foreign "execution reverted: invalid secret") |}.

(** A node that cannot be reached, and one whose contracts reject every
    read. *)
Definition down : Config :=
  {| pendingNonce := Err (Foreign "connection refused");
     gasPrice := Ok 1000000000;
     chainID := Ok 1337;
     callReply := reply 1;
     sendError := None |}.

Definition deaf : Config :=
  {| pendingNonce := Ok 7;
     gasPrice := Ok 1000000000;
     chainID := Ok 1337;
     callReply := fun _ => Err (Foreign "execution reverted");
     sendError := None |}.

(** The key with secret scalar 1 (the public point is the generator of
    secp256k1). *)
Definition key1 : ecdsa_PrivateKey :=
  {| key_D := 1;
     key_X := 0x79BE667EF9DCBBAC55A06295CE870B07029BFCDB2DCE28D959F2815B16F81798;
     key_Y := 0x483ADA7726A3C4655DA4FBFC0E1108A8FD17B448A68554199C47D08FFB10D4B8 |}.

Definition factory : ethcommon.Address := 0xFAC7.
Definition adapter : ethcommon.Address := 0xADA9.

(** The client that [NewXMREscrowClient] builds for [key1]. *)
Definition newClient : result (oneinch.XMREscrowClient geth.lib) :=
  oneinch.NewXMREscrowClient geth.lib
    (Some {| rawurl := "http://localhost:8545" |})
    (Some {| contracts.registry := 0x5C |})
    factory adapter (Some key1).

(** The three ABIs as [abi.JSON] parses them, with their method identifiers
    (for one, 0x1865c57d for getState). *)
Definition escrowSrcABI : list geth.Method :=
  Eval vm_compute in map geth.NewMethod oneinch.escrowSrcABIJSON.
Definition escrowFactoryABI : list geth.Method :=
  Eval vm_compute in map geth.NewMethod oneinch.escrowFactoryABIJSON.
Definition swapAdapterABI : list geth.Method :=
  Eval vm_compute in map geth.NewMethod oneinch.swapAdapterABIJSON.

Definition client : oneinch.XMREscrowClient geth.lib :=
  oneinch.Build_XMREscrowClient geth.lib
    {| rawurl := "http://localhost:8545" |}
    factory
    adapter
    {| contracts.registry := 0x5C |}
    key1
    escrowSrcABI escrowFactoryABI swapAdapterABI.

(** The spec's native-currency scenario. *)
Definition goodParams : oneinch.SwapParams :=
  {| oneinch.Claimer := 0xAAA;
     oneinch.ClaimCommitment := 0x1111;
     oneinch.RefundCommitment := 0x2222;
     oneinch.Timeout1 := 3600;
     oneinch.Timeout2 := 7200;
     oneinch.Asset := 0;
     oneinch.Value := 1000000000000000000 |}.

(** A swap of a token: the asset is not the zero address. *)
Definition tokenParams : oneinch.SwapParams :=
  {| oneinch.Claimer := 0xAAA;
     oneinch.ClaimCommitment := 0x1111;
     oneinch.RefundCommitment := 0x2222;
     oneinch.Timeout1 := 3600;
     oneinch.Timeout2 := 7200;
     oneinch.Asset := 0xE20;
     oneinch.Value := 5000 |}.

(** Parameters that break all three rules of the spec's validation: the
    timeouts are out of order, the value is zero, the claimer is the zero
    address. *)
Definition badParams : oneinch.SwapParams :=
  {| oneinch.Claimer := 0;
     oneinch.ClaimCommitment := 0x1111;
     oneinch.RefundCommitment := 0x2222;
     oneinch.Timeout1 := 7200;
     oneinch.Timeout2 := 3600;
     oneinch.Asset := 0xE20;
     oneinch.Value := 0 |}.

End devnet.


(** * Properties *)

(** ** Running programs *)
Section RunLemmas.
Context {abiT : Type}.
Implicit Types (nd : Node abiT) (h : list (Event abiT)).

Lemma run_bind {A B : Type} nd h (m : Net abiT A) (f : A -> Net abiT B) :
  run nd h (bind m f) = run nd (snd (run nd h m)) (f (fst (run nd h m))).
Proof.
  revert h. induction m as [a | X c k IH]; intros h; simpl.
  - reflexivity.
  - apply IH.
Qed.

Lemma emitted_bind {A B : Type} nd h (m : Net abiT A) (f : A -> Net abiT B) :
  emitted nd h (bind m f) =
  emitted nd h m ++ emitted nd (snd (run nd h m)) (f (fst (run nd h m))).
Proof.
  revert h. induction m as [a | X c k IH]; intros h; simpl.
  - reflexivity.
  - f_equal. apply IH.
Qed.

(** The history after a run is the history before it followed by the calls
    made. *)
Lemma run_history {A : Type} nd h (m : Net abiT A) :
  snd (run nd h m) = h ++ emitted nd h m.
Proof.
  revert h. induction m as [a | X c k IH]; intros h; simpl.
  - now rewrite app_nil_r.
  - rewrite IH, <- app_assoc. reflexivity.
Qed.

(** The calls of a run, read off its final history. *)
Lemma emitted_of_history {A : Type} nd h (m : Net abiT A) evs :
  snd (run nd h m) = h ++ evs -> emitted nd h m = evs.
Proof.
  rewrite run_history. apply app_inv_head.
Qed.

Lemma run_call {X : Type} nd h (c : NetCall abiT X) :
  run nd h (call c) = (answer nd h c, h ++ [event_of c]).
Proof. reflexivity. Qed.

Lemma Sat_bind {A B : Type} (P : Event abiT -> Prop) (Q : A -> Prop) (R : B -> Prop)
    (m : Net abiT A) (f : A -> Net abiT B) :
  Sat P Q m -> (forall a, Q a -> Sat P R (f a)) -> Sat P R (bind m f).
Proof.
  intros Hm Hf. induction Hm as [a Ha | X c k Hc _ IH]; simpl.
  - apply Hf, Ha.
  - constructor; [exact Hc | exact IH].
Qed.

Lemma Sat_weaken {A : Type} (P P' : Event abiT -> Prop) (Q Q' : A -> Prop) (m : Net abiT A) :
  (forall e, P e -> P' e) -> (forall a, Q a -> Q' a) -> Sat P Q m -> Sat P' Q' m.
Proof.
  intros HP HQ Hm. induction Hm; constructor; auto.
Qed.

(** Soundness: what holds of the program holds of each of its runs. *)
Lemma Sat_run {A : Type} (P : Event abiT -> Prop) (Q : A -> Prop) (m : Net abiT A) nd h :
  Sat P Q m -> Forall P (emitted nd h m) /\ Q (fst (run nd h m)).
Proof.
  intros Hm. revert h. induction Hm as [a Ha | X c k Hc _ IH]; intros h; simpl.
  - split; [constructor | exact Ha].
  - destruct (IH (answer nd h c) (h ++ [event_of c])) as [Hev Hq].
    split; [constructor; assumption | exact Hq].
Qed.

End RunLemmas.

(** ** The reference implementation on known values *)

(** The Keccak-256 digest of the empty string starts c5 d2 46 01, and the
    identifier of transfer(address,uint256) is a9059cbb. *)
Example keccak_empty : firstn 4 (keccak.sum256 []) = [xc5; xd2; x46; x01].
Proof. vm_compute. reflexivity. Qed.

Example keccak_transfer :
  firstn 4 (keccak.sum256 (geth.bytes_of_string "transfer(address,uint256)"))
  = [xa9; x05; x9c; xbb].
Proof. vm_compute. reflexivity. Qed.

(** The account of the key with secret scalar 1. *)
Example address_of_key1 :
  geth.PubkeyToAddress devnet.key1 = 0x7E5F4552091A69125d5DfCb7b8C2659029395Bdf.
Proof. vm_compute. reflexivity. Qed.

Example factory_signature :
  map geth.Sig devnet.escrowFactoryABI =
  [ "calculateEscrowAddress(address,address,bytes32,bytes32,uint256,uint256,address,uint256)"%string;
    "deposit(address,address,bytes32,bytes32,uint256,uint256,address,uint256)"%string ].
Proof. reflexivity. Qed.

Example IsHexAddress_cases :
  map ethcommon.IsHexAddress
    [ "0x00000000000000000000000000000000000000ff"%string;
      "00000000000000000000000000000000000000ff"%string;
      "0X00000000000000000000000000000000000000ff"%string;
      "0x0X00000000000000000000000000000000000000ff"%string;
      "0x00000000000000000000000000000000000000fg"%string;
      "0x"%string ]
  = [true; true; true; false; false; false].
Proof. vm_compute. reflexivity. Qed.

Example int64_cases :
  map int64 [0; 5; 2 ^ 63 - 1; 2 ^ 63; 2 ^ 64 - 1] = [0; 5; 2 ^ 63 - 1; - 2 ^ 63; -1].
Proof. vm_compute. reflexivity. Qed.

(** The spec's native-currency scenario on the simulated node: the deposit
    carries the value 10^18; with a token as asset it carries none. *)
Example native_deposit_value :
  option_map types.tx_value
    (fst (fst (fst (run (devnet.node (devnet.healthy 1)) []
                      (oneinch.CreateSwap geth.lib devnet.client devnet.goodParams)))))
  = Some 1000000000000000000.
Proof. vm_compute. reflexivity. Qed.

Example token_deposit_value :
  let params :=
    {| oneinch.Claimer := 0xAAA;
       oneinch.ClaimCommitment := 0x1111;
       oneinch.RefundCommitment := 0x2222;
       oneinch.Timeout1 := 3600;
       oneinch.Timeout2 := 7200;
       oneinch.Asset := 0xE20;
       oneinch.Value := 5000 |} in
  option_map types.tx_value
    (fst (fst (fst (run (devnet.node (devnet.healthy 1)) []
                      (oneinch.CreateSwap geth.lib devnet.client params)))))
  = Some 0.
Proof. vm_compute. reflexivity. Qed.

(** The strict loader tests for the lower-case prefix only: an address
    written with 0X is given a second prefix and rejected. *)
Example upper_case_prefix_rejected :
  let env : gmap string string :=
    <[common.escrowFactoryEnvVar := "0X00000000000000000000000000000000000000fa"%string]>
      (<[common.escrowAdapterEnvVar := "0x00000000000000000000000000000000000000ad"%string]> ∅) in
  common.GetEscrowAddressesFromEnv env =
  (0, 0, Some (common.errFormat common.escrowFactoryEnvVar
                 "0x0X00000000000000000000000000000000000000fa")).
Proof. vm_compute. reflexivity. Qed.

(** ** The swap record and the parameters (C9) *)

(** C9.  [ConvertSwapCreatorSwapToParams] copies each of the seven fields of
    the on-chain swap record unchanged; converting the parameters back gives
    a record with the same claimer, commitments, timeouts, asset and value as
    the one started from, and converting that again gives the same
    parameters. *)
Theorem C9_convert_round_trip (swap : contracts.SwapCreatorSwap) :
  let p := oneinch.ConvertSwapCreatorSwapToParams swap in
  let swap' := oneinch.ConvertParamsToSwapCreatorSwap p in
  (oneinch.Claimer p = contracts.Claimer swap /\
   oneinch.ClaimCommitment p = contracts.ClaimCommitment swap /\
   oneinch.RefundCommitment p = contracts.RefundCommitment swap /\
   oneinch.Timeout1 p = contracts.Timeout1 swap /\
   oneinch.Timeout2 p = contracts.Timeout2 swap /\
   oneinch.Asset p = contracts.Asset swap /\
   oneinch.Value p = contracts.Value swap) /\
  (contracts.Claimer swap' = contracts.Claimer swap /\
   contracts.ClaimCommitment swap' = contracts.ClaimCommitment swap /\
   contracts.RefundCommitment swap' = contracts.RefundCommitment swap /\
   contracts.Timeout1 swap' = contracts.Timeout1 swap /\
   contracts.Timeout2 swap' = contracts.Timeout2 swap /\
   contracts.Asset swap' = contracts.Asset swap /\
   contracts.Value swap' = contracts.Value swap) /\
  oneinch.ConvertSwapCreatorSwapToParams swap' = p.
Proof.
  destruct swap; cbn. repeat split.
Qed.

(** The other way round, parameters survive the passage through the swap
    record. *)
Lemma convert_params_round_trip (params : oneinch.SwapParams) :
  oneinch.ConvertSwapCreatorSwapToParams (oneinch.ConvertParamsToSwapCreatorSwap params)
  = params.
Proof. destruct params; reflexivity. Qed.

(** ** The constructors (C3) *)
Section Construction.
Context (G : GoEthereum).

Lemma NewXMREscrowClient_present client swapCreator factoryAddress adapterAddress privateKey :
  factoryAddress <> ethcommon.zero ->
  adapterAddress <> ethcommon.zero ->
  oneinch.NewXMREscrowClient G (Some client) (Some swapCreator)
    factoryAddress adapterAddress (Some privateKey) =
  match oneinch.loadEscrowSrcABI G with
  | Err err => Err err
  | Ok escrowSrcABI =>
  match oneinch.loadEscrowFactoryABI G with
  | Err err => Err err
  | Ok escrowFactoryABI =>
  match oneinch.loadSwapAdapterABI G with
  | Err err => Err err
  | Ok swapAdapterABI =>
      Ok (oneinch.Build_XMREscrowClient G client factoryAddress adapterAddress
            swapCreator privateKey escrowSrcABI escrowFactoryABI swapAdapterABI)
  end end end.
Proof.
  intros Hf Ha. unfold oneinch.NewXMREscrowClient, ethcommon.is_zero.
  destruct (Z.eqb_spec factoryAddress ethcommon.zero) as [E | _]; [contradiction |].
  destruct (Z.eqb_spec adapterAddress ethcommon.zero) as [E | _]; [contradiction |].
  reflexivity.
Qed.

Lemma NewXMREscrowClient_absent client swapCreator factoryAddress adapterAddress privateKey :
  client = None \/ swapCreator = None \/ privateKey = None \/
  factoryAddress = ethcommon.zero \/ adapterAddress = ethcommon.zero ->
  exists msg,
    oneinch.NewXMREscrowClient G client swapCreator factoryAddress adapterAddress privateKey =
    Err (ErrorsNew msg).
Proof.
  intros H. unfold oneinch.NewXMREscrowClient, ethcommon.is_zero.
  destruct client as [cl |]; [| eauto].
  destruct swapCreator as [sc |]; [| eauto].
  destruct privateKey as [k |]; [| eauto].
  destruct (Z.eqb_spec factoryAddress ethcommon.zero) as [Ef | Nf]; [eauto |].
  destruct (Z.eqb_spec adapterAddress ethcommon.zero) as [Ea | Na]; [eauto |].
  destruct H as [H | [H | [H | [H | H]]]]; congruence.
Qed.

End Construction.

(** C3.  [NewXMREscrowClient] returns an error, built on the spot and with no
    call to the node (the constructor is a pure function), whenever the
    network handle, the swap-registry reference or the signing key is nil or
    the factory or adapter address is the zero address.  When all five are
    present and not zero and the three ABI documents parse, it returns the
    client holding exactly these five values and the three parsed ABIs.
    [InitializeEscrowClient] fails in the first case too. *)
Theorem C3_construction (G : GoEthereum)
    (client : option ethclient_Client) (swapCreator : option contracts.SwapCreator)
    (factoryAddress adapterAddress : ethcommon.Address)
    (privateKey : option ecdsa_PrivateKey) :
  (client = None \/ swapCreator = None \/ privateKey = None \/
   factoryAddress = ethcommon.zero \/ adapterAddress = ethcommon.zero ->
   (exists msg,
      oneinch.NewXMREscrowClient G client swapCreator factoryAddress adapterAddress privateKey
      = Err (ErrorsNew msg)) /\
   (exists e,
      oneinch.InitializeEscrowClient G
        {| extethclient.Raw := client; extethclient.PrivateKey := privateKey |}
        swapCreator factoryAddress adapterAddress = Err e)) /\
  (forall cl sc key a1 a2 a3,
     client = Some cl -> swapCreator = Some sc -> privateKey = Some key ->
     factoryAddress <> ethcommon.zero -> adapterAddress <> ethcommon.zero ->
     oneinch.loadEscrowSrcABI G = Ok a1 ->
     oneinch.loadEscrowFactoryABI G = Ok a2 ->
     oneinch.loadSwapAdapterABI G = Ok a3 ->
     let c := oneinch.Build_XMREscrowClient G cl factoryAddress adapterAddress sc key a1 a2 a3 in
     oneinch.NewXMREscrowClient G client swapCreator factoryAddress adapterAddress privateKey
     = Ok c /\
     oneinch.InitializeEscrowClient G
       {| extethclient.Raw := client; extethclient.PrivateKey := privateKey |}
       swapCreator factoryAddress adapterAddress = Ok c).
Proof.
  split.
  - intros H. split.
    + apply NewXMREscrowClient_absent, H.
    + destruct (NewXMREscrowClient_absent G _ _ _ _ _ H) as [msg Hmsg].
      unfold oneinch.InitializeEscrowClient;
        cbn [extethclient.Raw extethclient.PrivateKey].
      destruct (ethcommon.is_zero factoryAddress); [eauto |].
      destruct (ethcommon.is_zero adapterAddress); [eauto |].
      destruct swapCreator; [| eauto].
      destruct client; [| eauto].
      destruct privateKey; [| eauto].
      rewrite Hmsg. eauto.
  - intros cl sc key a1 a2 a3 -> -> -> Hf Ha H1 H2 H3 c.
    assert (Hnew : oneinch.NewXMREscrowClient G (Some cl) (Some sc)
                     factoryAddress adapterAddress (Some key) = Ok c).
    { rewrite NewXMREscrowClient_present by assumption.
      rewrite H1, H2, H3. reflexivity. }
    split; [exact Hnew |].
    unfold oneinch.InitializeEscrowClient;
        cbn [extethclient.Raw extethclient.PrivateKey].
    unfold ethcommon.is_zero.
    destruct (Z.eqb_spec factoryAddress ethcommon.zero); [contradiction |].
    destruct (Z.eqb_spec adapterAddress ethcommon.zero); [contradiction |].
    rewrite Hnew. reflexivity.
Qed.

(** The spec's scenario of a missing configuration, and a complete one, on the
    reference implementation. *)
Lemma C3_construction_witness :
  (exists msg,
     oneinch.NewXMREscrowClient geth.lib
       (Some {| rawurl := "http://localhost:8545" |})
       (Some {| contracts.registry := 0x5C |})
       devnet.factory ethcommon.zero (Some devnet.key1) = Err (ErrorsNew msg)) /\
  devnet.newClient = Ok devnet.client.
Proof.
  split.
  - apply (proj1 (proj1 (C3_construction geth.lib _ _ _ _ _)
                    (or_intror (or_intror (or_intror (or_intror eq_refl)))))).
  - refine (proj1 (proj2 (C3_construction geth.lib _ _ _ _ _)
                     _ _ devnet.key1
                     devnet.escrowSrcABI devnet.escrowFactoryABI devnet.swapAdapterABI
                     eq_refl eq_refl eq_refl _ _ _ _ _));
      try discriminate; vm_compute; reflexivity.
Defined.

(** ** The signing context (C5, C10) *)
Section SigningContext.
Context (G : GoEthereum).
Implicit Types (c : oneinch.XMREscrowClient G) (nd : Node (ABI G)) (h : list (Event (ABI G))).

(** A run of [getAuth], answer by answer. *)
Lemma run_getAuth c nd h :
  run nd h (oneinch.getAuth G c) =
  let account := crypto_PubkeyToAddress G (oneinch.privateKey G c) in
  let h1 := h ++ [EvPendingNonceAt account] in
  let h2 := h1 ++ [EvSuggestGasPrice] in
  let h3 := h2 ++ [EvChainID] in
  match nd_PendingNonceAt nd h account with
  | Err e => (Err e, h1)
  | Ok nonce =>
  match nd_SuggestGasPrice nd h1 with
  | Err e => (Err e, h2)
  | Ok gasPrice =>
  match nd_ChainID nd h2 with
  | Err e => (Err e, h3)
  | Ok chainID =>
  match bind_NewKeyedTransactorWithChainID G (oneinch.privateKey G c) chainID with
  | Err e => (Err e, h3)
  | Ok auth => (Ok (oneinch.authOf nonce gasPrice auth), h3)
  end end end end.
Proof.
  unfold oneinch.getAuth; simpl.
  destruct (nd_PendingNonceAt nd h _); simpl; [| reflexivity].
  destruct (nd_SuggestGasPrice nd _); simpl; [| reflexivity].
  destruct (nd_ChainID nd _); simpl; [| reflexivity].
  destruct (bind_NewKeyedTransactorWithChainID G _ _); reflexivity.
Qed.

(** [getAuth] sends no transaction, and a context it returns has value zero
    and the fixed gas limit. *)
Lemma getAuth_sat c :
  Sat (fun e => is_transact e = false)
      (fun r => forall auth, r = Ok auth ->
                bind.Value auth = Some 0 /\ bind.GasLimit auth = 300000)
      (oneinch.getAuth G c).
Proof.
  unfold oneinch.getAuth, call; simpl.
  constructor; [reflexivity |]. intros [nonce | e]; simpl;
    [| constructor; discriminate].
  constructor; [reflexivity |]. intros [gasPrice | e]; simpl;
    [| constructor; discriminate].
  constructor; [reflexivity |]. intros [chainID | e]; simpl;
    [| constructor; discriminate].
  destruct (bind_NewKeyedTransactorWithChainID G _ _) as [auth | e];
    constructor; [| discriminate].
  intros auth' [= <-]. split; reflexivity.
Qed.

Lemma getAuth_inv c nd h auth h' :
  run nd h (oneinch.getAuth G c) = (Ok auth, h') ->
  exists nonce gasPrice chainID base,
    nd_PendingNonceAt nd h (crypto_PubkeyToAddress G (oneinch.privateKey G c)) = Ok nonce /\
    bind_NewKeyedTransactorWithChainID G (oneinch.privateKey G c) chainID = Ok base /\
    auth = oneinch.authOf nonce gasPrice base.
Proof.
  rewrite run_getAuth; cbv zeta.
  destruct (nd_PendingNonceAt nd h _) as [nonce | ]; [| discriminate].
  destruct (nd_SuggestGasPrice nd _) as [gasPrice | ]; [| discriminate].
  destruct (nd_ChainID nd _) as [chainID | ]; [| discriminate].
  destruct (bind_NewKeyedTransactorWithChainID G _ _) as [base | ] eqn:E; [| discriminate].
  intros [= <- _]. exists nonce, gasPrice, chainID, base. auto.
Qed.

Lemma int64_small (n : Z) : 0 <= n < 2 ^ 63 -> int64 n = n.
Proof.
  intros H. unfold int64. rewrite Z.mod_small by lia. lia.
Qed.

Lemma int64_large (n : Z) : 2 ^ 63 <= n < 2 ^ 64 -> int64 n = n - 2 ^ 64.
Proof.
  intros H. unfold int64.
  replace (n + 2 ^ 63) with (n - 2 ^ 63 + 1 * 2 ^ 64) by lia.
  rewrite Z.mod_add by lia. rewrite Z.mod_small by lia. lia.
Qed.

End SigningContext.

(** C10.  [getAuth] stores the pending nonce, a [uint64], through
    [int64]: the nonce of the signing context is the account's pending nonce
    exactly when that nonce is below 2^63; from 2^63 on the conversion wraps
    and the context carries the negative number [nonce - 2^64]. *)
Theorem C10_nonce_through_int64 (G : GoEthereum) (c : oneinch.XMREscrowClient G)
    (nd : Node (ABI G)) (h : list (Event (ABI G))) (nonce : Z) (auth : bind.TransactOpts) :
  0 <= nonce < 2 ^ 64 ->
  nd_PendingNonceAt nd h (crypto_PubkeyToAddress G (oneinch.privateKey G c)) = Ok nonce ->
  fst (run nd h (oneinch.getAuth G c)) = Ok auth ->
  bind.Nonce auth = Some (int64 nonce) /\
  (bind.Nonce auth = Some nonce <-> nonce < 2 ^ 63) /\
  (2 ^ 63 <= nonce -> bind.Nonce auth = Some (nonce - 2 ^ 64) /\ nonce - 2 ^ 64 < 0).
Proof.
  intros Hrange Hnonce Hrun.
  destruct (run nd h (oneinch.getAuth G c)) as [r h'] eqn:E. simpl in Hrun. subst r.
  apply getAuth_inv in E as (nonce' & gasPrice & chainID & base & Hn & _ & ->).
  rewrite Hnonce in Hn. injection Hn as <-. cbn [bind.Nonce oneinch.authOf].
  split; [reflexivity |]. split.
  - split.
    + intros [= E]. destruct (Z.lt_ge_cases nonce (2 ^ 63)) as [Hlt | Hge]; [exact Hlt |].
      rewrite int64_large in E by lia. lia.
    + intros Hlt. rewrite int64_small by lia. reflexivity.
  - intros Hge. rewrite int64_large by lia. split; [reflexivity | lia].
Qed.

(** A node whose account has the pending nonce 2^63: the signing context
    carries the nonce -2^63. *)
Lemma C10_nonce_through_int64_witness :
  let cfg := {| devnet.pendingNonce := Ok (2 ^ 63);
                devnet.gasPrice := Ok 1000000000;
                devnet.chainID := Ok 1337;
                devnet.callReply := devnet.reply 1;
                devnet.sendError := None |} in
  exists auth,
    fst (run (devnet.node cfg) [] (oneinch.getAuth geth.lib devnet.client)) = Ok auth /\
    bind.Nonce auth = Some (- 2 ^ 63).
Proof.
  intros cfg. eexists. split; [reflexivity |].
  refine (proj1 (proj2 (proj2
    (C10_nonce_through_int64 geth.lib devnet.client (devnet.node cfg) [] (2 ^ 63) _
       _ eq_refl eq_refl)) _)); lia.
Defined.

(** The value and the gas limit of whatever is built and sent: a signing
    context that [getAuth] returns has value zero and gas limit 300000; a
    transaction of [CreateSwap] is sent with [params.Value] when
    [params.Asset] is the zero address and with zero otherwise, one of
    [ClaimSwap] or [RefundSwap] with zero; all with the gas limit 300000. *)
Lemma value_and_gas_limit_of_calls (G : GoEthereum) (c : oneinch.XMREscrowClient G)
    (params : oneinch.SwapParams) (escrowAddress : ethcommon.Address)
    (secret refundKey : Bytes32) (nd : Node (ABI G)) (h : list (Event (ABI G))) :
  match fst (run nd h (oneinch.getAuth G c)) with
  | Ok auth => bind.Value auth = Some 0 /\ bind.GasLimit auth = 300000
  | Err _ => True
  end /\
  Forall (sends_with
            (if ethcommon.is_zero (oneinch.Asset params) then oneinch.Value params else 0)
            300000)
         (emitted nd h (oneinch.CreateSwap G c params)) /\
  Forall (sends_with 0 300000) (emitted nd h (oneinch.ClaimSwap G c escrowAddress secret)) /\
  Forall (sends_with 0 300000) (emitted nd h (oneinch.RefundSwap G c escrowAddress refundKey)).
Proof.
  pose proof (getAuth_sat G c) as Hauth.
  assert (Hquiet : Sat (fun e : Event (ABI G) => forall v, sends_with v 300000 e)
            (fun r => forall auth, r = Ok auth ->
                      bind.Value auth = Some 0 /\ bind.GasLimit auth = 300000)
            (oneinch.getAuth G c)).
  { eapply Sat_weaken; [| | exact Hauth]; [| auto].
    intros [] He v; simpl in *; try exact I. discriminate. }
  repeat split.
  - destruct (Sat_run _ _ _ nd h Hauth) as [_ Hq].
    destruct (fst (run nd h (oneinch.getAuth G c))) as [auth |]; [| exact I].
    apply Hq. reflexivity.
  - apply (Sat_run _ (fun _ => True)). unfold oneinch.CreateSwap.
    eapply Sat_bind.
    + eapply Sat_weaken; [| | exact Hquiet]; [intros e He; apply He | intros a Ha; exact Ha].
    + intros [auth | e] Hq; [| constructor; exact I].
      destruct (Hq auth eq_refl) as [Hv Hg].
      unfold oneinch.calculateEscrowAddress.
      destruct (abi_Pack G _ _ _) as [data | e]; simpl.
      * constructor; [exact I |]. intros [reply | e]; simpl.
        -- destruct (abi_UnpackAddress G _ _ _) as [addr | e]; simpl.
           ++ constructor.
              ** simpl. destruct (ethcommon.is_zero (oneinch.Asset params)); simpl; auto.
              ** intros [tx | e]; constructor; exact I.
           ++ constructor; exact I.
        -- constructor; exact I.
      * constructor; exact I.
  - apply (Sat_run _ (fun _ => True)). unfold oneinch.ClaimSwap.
    eapply Sat_bind.
    + eapply Sat_weaken; [| | exact Hquiet]; [intros e He; apply He | intros a Ha; exact Ha].
    + intros [auth | e] Hq; [| constructor; exact I].
      destruct (Hq auth eq_refl) as [Hv Hg]. simpl.
      constructor; [simpl; auto |]. intros [tx | e]; constructor; exact I.
  - apply (Sat_run _ (fun _ => True)). unfold oneinch.RefundSwap.
    eapply Sat_bind.
    + eapply Sat_weaken; [| | exact Hquiet]; [intros e He; apply He | intros a Ha; exact Ha].
    + intros [auth | e] Hq; [| constructor; exact I].
      destruct (Hq auth eq_refl) as [Hv Hg]. simpl.
      constructor; [simpl; auto |]. intros [tx | e]; constructor; exact I.
Qed.

(** ** The two reads of a contract (C4, C6) *)
Section Reads.
Context (G : GoEthereum).
Implicit Types (c : oneinch.XMREscrowClient G) (nd : Node (ABI G)) (h : list (Event (ABI G))).

(** A run of [calculateEscrowAddress]: at most one call, a read of the
    factory whose data packs the adapter address and the seven fields. *)
Lemma run_calculateEscrowAddress c params nd h :
  run nd h (oneinch.calculateEscrowAddress G c params) =
  match abi_Pack G (oneinch.escrowFactoryABI G c) "calculateEscrowAddress"
          (oneinch.factoryArgs G c params) with
  | Err e => ((ethcommon.zero, Some e), h)
  | Ok data =>
  let msg := {| ethereum.To := oneinch.factoryAddress G c; ethereum.Data := data |} in
  match nd_CallContract nd h msg with
  | Err e => ((ethcommon.zero, Some e), h ++ [EvCallContract msg])
  | Ok reply =>
  match abi_UnpackAddress G (oneinch.escrowFactoryABI G c) "calculateEscrowAddress" reply with
  | Err e => ((ethcommon.zero, Some e), h ++ [EvCallContract msg])
  | Ok escrowAddress => ((escrowAddress, None), h ++ [EvCallContract msg])
  end end end.
Proof.
  unfold oneinch.calculateEscrowAddress.
  destruct (abi_Pack G _ _ _) as [data | e]; simpl; [| reflexivity].
  destruct (nd_CallContract nd h _) as [reply | e]; simpl; [| reflexivity].
  destruct (abi_UnpackAddress G _ _ _); reflexivity.
Qed.

Lemma calculateEscrowAddress_sat c params :
  Sat (fun e => is_transact e = false) (fun _ => True)
      (oneinch.calculateEscrowAddress G c params).
Proof.
  unfold oneinch.calculateEscrowAddress.
  destruct (abi_Pack G _ _ _) as [data | e]; simpl; [| constructor; exact I].
  constructor; [reflexivity |]. intros [reply | e]; simpl; [| constructor; exact I].
  destruct (abi_UnpackAddress G _ _ _); constructor; exact I.
Qed.

(** A run of [GetSwapState]. *)
Lemma run_GetSwapState c escrowAddress nd h :
  run nd h (oneinch.GetSwapState G c escrowAddress) =
  match abi_Pack G (oneinch.escrowSrcABI G c) "getState" [] with
  | Err e => ((0, Some e), h)
  | Ok data =>
  let msg := {| ethereum.To := escrowAddress; ethereum.Data := data |} in
  match nd_CallContract nd h msg with
  | Err e => ((0, Some e), h ++ [EvCallContract msg])
  | Ok reply =>
  match abi_UnpackUint8 G (oneinch.escrowSrcABI G c) "getState" reply with
  | Err e => ((0, Some e), h ++ [EvCallContract msg])
  | Ok state => ((state, None), h ++ [EvCallContract msg])
  end end end.
Proof.
  unfold oneinch.GetSwapState.
  destruct (abi_Pack G _ _ _) as [data | e]; simpl; [| reflexivity].
  destruct (nd_CallContract nd h _) as [reply | e]; simpl; [| reflexivity].
  destruct (abi_UnpackUint8 G _ _ _); reflexivity.
Qed.

End Reads.

(** C4.  [calculateEscrowAddress] packs one call of the factory method with
    the adapter address followed by claimer, claim commitment, refund
    commitment, timeout1, timeout2, asset and value, and makes no other call
    to the node.  What it returns is decided by the node's answer to that
    call alone: two runs in which the deployment answers the packed call
    alike, from whatever histories, return the same address and error. *)
Theorem C4_address_deterministic (G : GoEthereum) (c : oneinch.XMREscrowClient G)
    (params : oneinch.SwapParams) (nd1 nd2 : Node (ABI G)) (h1 h2 : list (Event (ABI G))) :
  let packed :=
    abi_Pack G (oneinch.escrowFactoryABI G c) "calculateEscrowAddress"
      [ abi.address (oneinch.adapterAddress G c);
        abi.address (oneinch.Claimer params);
        abi.bytes32 (oneinch.ClaimCommitment params);
        abi.bytes32 (oneinch.RefundCommitment params);
        abi.bigInt (oneinch.Timeout1 params);
        abi.bigInt (oneinch.Timeout2 params);
        abi.address (oneinch.Asset params);
        abi.bigInt (oneinch.Value params) ] in
  let msg data := {| ethereum.To := oneinch.factoryAddress G c; ethereum.Data := data |} in
  (forall data, packed = Ok data ->
     nd_CallContract nd1 h1 (msg data) = nd_CallContract nd2 h2 (msg data)) ->
  fst (run nd1 h1 (oneinch.calculateEscrowAddress G c params)) =
  fst (run nd2 h2 (oneinch.calculateEscrowAddress G c params)) /\
  emitted nd1 h1 (oneinch.calculateEscrowAddress G c params) =
  match packed with
  | Ok data => [EvCallContract (msg data)]
  | Err _ => []
  end.
Proof.
  intros packed msg Hsame. split.
  - rewrite !run_calculateEscrowAddress.
    change (abi_Pack G _ _ (oneinch.factoryArgs G c params)) with packed.
    destruct packed as [data | e] eqn:E; [| reflexivity].
    cbv zeta. fold (msg data). rewrite (Hsame data eq_refl).
    destruct (nd_CallContract nd2 h2 (msg data)) as [reply | e]; [| reflexivity].
    destruct (abi_UnpackAddress G _ _ reply); reflexivity.
  - unfold oneinch.calculateEscrowAddress.
    change (abi_Pack G _ _ (oneinch.factoryArgs G c params)) with packed.
    destruct packed as [data | e]; simpl; [| reflexivity].
    destruct (nd_CallContract nd1 h1 _); simpl; [| reflexivity].
    destruct (abi_UnpackAddress G _ _ _); reflexivity.
Qed.

(** With the reference encoder the packed call is the identifier of the
    method followed by eight 32-byte words, in the order of the arguments. *)
Lemma calculateEscrowAddress_calldata (c : oneinch.XMREscrowClient geth.lib)
    (params : oneinch.SwapParams) :
  oneinch.escrowFactoryABI geth.lib c = devnet.escrowFactoryABI ->
  geth.Pack (oneinch.escrowFactoryABI geth.lib c) "calculateEscrowAddress"
    (oneinch.factoryArgs geth.lib c params)
  = Ok ([xb4; x18; xee; x9d] ++
        geth.word32 (oneinch.adapterAddress geth.lib c mod 2 ^ 160) ++
        geth.word32 (oneinch.Claimer params mod 2 ^ 160) ++
        geth.word32 (oneinch.ClaimCommitment params) ++
        geth.word32 (oneinch.RefundCommitment params) ++
        geth.word32 (oneinch.Timeout1 params) ++
        geth.word32 (oneinch.Timeout2 params) ++
        geth.word32 (oneinch.Asset params mod 2 ^ 160) ++
        geth.word32 (oneinch.Value params) ++ []).
Proof.
  intros ->. reflexivity.
Qed.

(** Two resolutions against the simulated deployment, the second after a
    deposit has gone through: the same address, and the call data is the
    method identifier followed by eight words. *)
Lemma C4_address_deterministic_witness :
  let nd := devnet.node (devnet.healthy 1) in
  let prog := oneinch.calculateEscrowAddress geth.lib devnet.client devnet.goodParams in
  let later := snd (run nd [] (oneinch.CreateSwap geth.lib devnet.client devnet.goodParams)) in
  fst (run nd [] prog) = fst (run nd later prog) /\
  map (fun e => match e with
                | EvCallContract m => Some (ethereum.To m, List.length (ethereum.Data m))
                | _ => None
                end) (emitted nd [] prog)
  = [Some (devnet.factory, (4 + 8 * 32)%nat)].
Proof.
  intros nd prog later.
  destruct (C4_address_deterministic geth.lib devnet.client devnet.goodParams
              nd nd [] later (fun _ _ => eq_refl)) as [Hsame Hcall].
  split; [exact Hsame |].
  refine (eq_trans (f_equal _ Hcall) _). vm_compute. reflexivity.
Defined.

(** C6, as the code has it.  [GetSwapState] hands back the [uint8] that the
    reply unpacks to, whatever its value, with a nil error; it maps the code
    to no named state and rejects none.  It fails only when packing, the call
    or unpacking fails, with the error of that step. *)
Theorem C6_state_code_returned_raw (G : GoEthereum) (c : oneinch.XMREscrowClient G)
    (escrowAddress : ethcommon.Address) (nd : Node (ABI G)) (h : list (Event (ABI G))) :
  let packed := abi_Pack G (oneinch.escrowSrcABI G c) "getState" [] in
  let msg data := {| ethereum.To := escrowAddress; ethereum.Data := data |} in
  let unpack := abi_UnpackUint8 G (oneinch.escrowSrcABI G c) "getState" in
  (forall data reply state,
     packed = Ok data ->
     nd_CallContract nd h (msg data) = Ok reply ->
     unpack reply = Ok state ->
     fst (run nd h (oneinch.GetSwapState G c escrowAddress)) = (state, None)) /\
  (forall e,
     snd (fst (run nd h (oneinch.GetSwapState G c escrowAddress))) = Some e ->
     packed = Err e \/
     exists data, packed = Ok data /\
       (nd_CallContract nd h (msg data) = Err e \/
        exists reply, nd_CallContract nd h (msg data) = Ok reply /\ unpack reply = Err e)).
Proof.
  intros packed msg unpack. split.
  - intros data reply state Hpack Hcall Hunpack.
    rewrite run_GetSwapState. fold packed. rewrite Hpack. cbv zeta.
    fold (msg data). rewrite Hcall. fold unpack. rewrite Hunpack. reflexivity.
  - intros e. rewrite run_GetSwapState. fold packed.
    destruct packed as [data | e0]; cbn [fst snd].
    + cbv zeta. fold (msg data). right. exists data. split; [reflexivity |].
      destruct (nd_CallContract nd h (msg data)) as [reply | e1]; cbn [fst snd] in *.
      * right. exists reply. split; [reflexivity |]. fold unpack in H.
        destruct (unpack reply); cbn [fst snd] in H; congruence.
      * left. congruence.
    + intros [= ->]. left. reflexivity.
Qed.

(** An escrow that answers with the code 200, and one that rejects the
    read. *)
Lemma C6_state_code_returned_raw_witness :
  fst (run (devnet.node (devnet.healthy 200)) []
         (oneinch.GetSwapState geth.lib devnet.client 0xE5C)) = (200, None) /\
  nd_CallContract (devnet.node devnet.deaf) []
    {| ethereum.To := 0xE5C; ethereum.Data := [x18; x65; xc5; x7d] |}
  = Err (Foreign "execution reverted").
Proof.
  split.
  - apply (proj1 (C6_state_code_returned_raw geth.lib devnet.client 0xE5C
                    (devnet.node (devnet.healthy 200)) [])
             [x18; x65; xc5; x7d] (geth.word32 200) 200);
      vm_compute; reflexivity.
  - destruct (proj2 (C6_state_code_returned_raw geth.lib devnet.client 0xE5C
                       (devnet.node devnet.deaf) []) (Foreign "execution reverted"))
      as [H | (data & Hdata & [H | (reply & H & _)])].
    + vm_compute. reflexivity.
    + vm_compute in H. discriminate H.
    + vm_compute in Hdata. injection Hdata as <-. exact H.
    + vm_compute in H. discriminate H.
Defined.

(** Five different codes come back unchanged and with a nil error: whichever
    four codes stand for the known states, one that stands for none of them
    is returned as it is. *)
Lemma C6_counterexample :
  map (fun code =>
         fst (run (devnet.node (devnet.healthy code)) []
                (oneinch.GetSwapState geth.lib devnet.client 0xE5C)))
      [0; 1; 2; 3; 4]
  = [(0, None); (1, None); (2, None); (3, None); (4, None)].
Proof. vm_compute. reflexivity. Qed.

(** ** Creating, claiming and refunding (C1, C2, C7) *)
Section Writes.
Context (G : GoEthereum).
Implicit Types (c : oneinch.XMREscrowClient G) (nd : Node (ABI G)) (h : list (Event (ABI G))).

(** A run of [CreateSwap] in terms of the runs of its two steps. *)
Lemma run_CreateSwap c params nd h :
  run nd h (oneinch.CreateSwap G c params) =
  let ra := run nd h (oneinch.getAuth G c) in
  match fst ra with
  | Err e => ((None, ethcommon.zero, Some e), snd ra)
  | Ok auth =>
  let rc := run nd (snd ra) (oneinch.calculateEscrowAddress G c params) in
  match fst rc with
  | (_, Some e) => ((None, ethcommon.zero, Some e), snd rc)
  | (escrowAddress, None) =>
  match answerTo nd (snd rc) (oneinch.depositEvent G c params auth) with
  | Err e => ((None, ethcommon.zero, Some e), snd rc ++ [oneinch.depositEvent G c params auth])
  | Ok tx => ((Some tx, escrowAddress, None), snd rc ++ [oneinch.depositEvent G c params auth])
  end end end.
Proof.
  unfold oneinch.CreateSwap. rewrite run_bind. cbv zeta.
  destruct (fst (run nd h (oneinch.getAuth G c))) as [auth | e]; [| reflexivity].
  rewrite run_bind.
  destruct (fst (run nd _ (oneinch.calculateEscrowAddress G c params))) as [addr [e |]];
    [reflexivity |].
  simpl. unfold oneinch.depositEvent.
  destruct (nd_Transact nd _ _ _ _ _ _); reflexivity.
Qed.

(** A run of [ClaimSwap] or [RefundSwap]: the context, then one transaction
    whose answer is handed back as it is. *)
Lemma run_ClaimSwap c escrowAddress secret nd h :
  run nd h (oneinch.ClaimSwap G c escrowAddress secret) =
  let ra := run nd h (oneinch.getAuth G c) in
  match fst ra with
  | Err e => (Err e, snd ra)
  | Ok auth =>
      (nd_Transact nd (snd ra) escrowAddress (oneinch.escrowSrcABI G c) auth
         "withdraw" [abi.bytes32 secret],
       snd ra ++ [EvTransact escrowAddress (oneinch.escrowSrcABI G c) auth
                    "withdraw" [abi.bytes32 secret]])
  end.
Proof.
  unfold oneinch.ClaimSwap. rewrite run_bind. cbv zeta.
  destruct (fst (run nd h (oneinch.getAuth G c))) as [auth | e]; [| reflexivity].
  simpl. destruct (nd_Transact nd _ _ _ _ _ _); reflexivity.
Qed.

Lemma run_RefundSwap c escrowAddress refundKey nd h :
  run nd h (oneinch.RefundSwap G c escrowAddress refundKey) =
  let ra := run nd h (oneinch.getAuth G c) in
  match fst ra with
  | Err e => (Err e, snd ra)
  | Ok auth =>
      (nd_Transact nd (snd ra) escrowAddress (oneinch.escrowSrcABI G c) auth
         "refund" [abi.bytes32 refundKey],
       snd ra ++ [EvTransact escrowAddress (oneinch.escrowSrcABI G c) auth
                    "refund" [abi.bytes32 refundKey]])
  end.
Proof.
  unfold oneinch.RefundSwap. rewrite run_bind. cbv zeta.
  destruct (fst (run nd h (oneinch.getAuth G c))) as [auth | e]; [| reflexivity].
  simpl. destruct (nd_Transact nd _ _ _ _ _ _); reflexivity.
Qed.

Lemma getAuth_quiet c nd h :
  Forall (fun e => is_transact e = false) (emitted nd h (oneinch.getAuth G c)).
Proof. apply (Sat_run _ _ _ nd h (getAuth_sat G c)). Qed.

Lemma calculateEscrowAddress_quiet c params nd h :
  Forall (fun e => is_transact e = false)
         (emitted nd h (oneinch.calculateEscrowAddress G c params)).
Proof. apply (Sat_run _ _ _ nd h (calculateEscrowAddress_sat G c params)). Qed.

(** A read that fails makes [getAuth] fail with the error of the read. *)
Lemma getAuth_read_error c nd h e :
  let account := crypto_PubkeyToAddress G (oneinch.privateKey G c) in
  let h1 := h ++ [EvPendingNonceAt account] in
  let h2 := h1 ++ [EvSuggestGasPrice] in
  nd_PendingNonceAt nd h account = Err e \/
  (is_Ok (nd_PendingNonceAt nd h account) = true /\
   nd_SuggestGasPrice nd h1 = Err e) \/
  (is_Ok (nd_PendingNonceAt nd h account) = true /\
   is_Ok (nd_SuggestGasPrice nd h1) = true /\
   nd_ChainID nd h2 = Err e) ->
  fst (run nd h (oneinch.getAuth G c)) = Err e.
Proof.
  intros account h1 h2 H. rewrite run_getAuth. cbv zeta.
  fold account. fold h1. fold h2.
  destruct (nd_PendingNonceAt nd h account) as [nonce | e0].
  - destruct (nd_SuggestGasPrice nd h1) as [gasPrice | e1].
    + destruct (nd_ChainID nd h2) as [chainID | e2].
      * destruct H as [H | [[_ H] | (_ & _ & H)]]; discriminate.
      * destruct H as [H | [[_ H] | (_ & _ & H)]]; try discriminate.
        injection H as ->. reflexivity.
    + destruct H as [H | [[_ H] | (_ & H & _)]]; try discriminate.
      injection H as ->. reflexivity.
  - destruct H as [H | [[H _] | (H & _)]]; try discriminate.
    injection H as ->. reflexivity.
Qed.

End Writes.

(** ** The calls of each operation *)
Section Traces.
Context (G : GoEthereum).
Implicit Types (c : oneinch.XMREscrowClient G) (nd : Node (ABI G)) (h : list (Event (ABI G))).

Lemma emitted_getAuth c nd h :
  let account := crypto_PubkeyToAddress G (oneinch.privateKey G c) in
  emitted nd h (oneinch.getAuth G c) =
  match nd_PendingNonceAt nd h account with
  | Err _ => [EvPendingNonceAt account]
  | Ok _ =>
      match nd_SuggestGasPrice nd (h ++ [EvPendingNonceAt account]) with
      | Err _ => [EvPendingNonceAt account; EvSuggestGasPrice]
      | Ok _ => [EvPendingNonceAt account; EvSuggestGasPrice; EvChainID]
      end
  end.
Proof.
  intros account. apply emitted_of_history. rewrite run_getAuth. cbv zeta. fold account.
  destruct (nd_PendingNonceAt nd h account); [| reflexivity].
  destruct (nd_SuggestGasPrice nd _); [| cbn [snd]; rewrite <- !app_assoc; reflexivity].
  destruct (nd_ChainID nd _); [| cbn [snd]; rewrite <- !app_assoc; reflexivity].
  destruct (bind_NewKeyedTransactorWithChainID G _ _);
    cbn [snd]; rewrite <- !app_assoc; reflexivity.
Qed.

Lemma emitted_calculateEscrowAddress c params nd h :
  emitted nd h (oneinch.calculateEscrowAddress G c params) =
  match abi_Pack G (oneinch.escrowFactoryABI G c) "calculateEscrowAddress"
          (oneinch.factoryArgs G c params) with
  | Ok data =>
      [EvCallContract {| ethereum.To := oneinch.factoryAddress G c; ethereum.Data := data |}]
  | Err _ => []
  end.
Proof.
  apply emitted_of_history. rewrite run_calculateEscrowAddress.
  destruct (abi_Pack G _ _ _) as [data | e]; [| cbn [snd]; now rewrite app_nil_r].
  cbv zeta. destruct (nd_CallContract nd h _) as [reply | e]; [| reflexivity].
  destruct (abi_UnpackAddress G _ _ reply); reflexivity.
Qed.

Lemma emitted_GetSwapState c escrowAddress nd h :
  emitted nd h (oneinch.GetSwapState G c escrowAddress) =
  match abi_Pack G (oneinch.escrowSrcABI G c) "getState" [] with
  | Ok data => [EvCallContract {| ethereum.To := escrowAddress; ethereum.Data := data |}]
  | Err _ => []
  end.
Proof.
  apply emitted_of_history. rewrite run_GetSwapState.
  destruct (abi_Pack G _ _ _) as [data | e]; [| cbn [snd]; now rewrite app_nil_r].
  cbv zeta. destruct (nd_CallContract nd h _) as [reply | e]; [| reflexivity].
  destruct (abi_UnpackUint8 G _ _ reply); reflexivity.
Qed.

Lemma emitted_CreateSwap c params nd h :
  emitted nd h (oneinch.CreateSwap G c params) =
  let ra := run nd h (oneinch.getAuth G c) in
  emitted nd h (oneinch.getAuth G c) ++
  match fst ra with
  | Err _ => []
  | Ok auth =>
      let rc := run nd (snd ra) (oneinch.calculateEscrowAddress G c params) in
      emitted nd (snd ra) (oneinch.calculateEscrowAddress G c params) ++
      match fst rc with
      | (_, Some _) => []
      | (_, None) => [oneinch.depositEvent G c params auth]
      end
  end.
Proof.
  cbv zeta. unfold oneinch.CreateSwap. rewrite emitted_bind. f_equal.
  destruct (fst (run nd h (oneinch.getAuth G c))) as [auth | e]; [| reflexivity].
  rewrite emitted_bind. f_equal.
  destruct (fst (run nd _ (oneinch.calculateEscrowAddress G c params))) as [addr [e |]];
    [reflexivity |].
  simpl. unfold oneinch.depositEvent.
  destruct (nd_Transact nd _ _ _ _ _ _); reflexivity.
Qed.

Lemma emitted_ClaimSwap c escrowAddress secret nd h :
  emitted nd h (oneinch.ClaimSwap G c escrowAddress secret) =
  emitted nd h (oneinch.getAuth G c) ++
  match fst (run nd h (oneinch.getAuth G c)) with
  | Err _ => []
  | Ok auth =>
      [EvTransact escrowAddress (oneinch.escrowSrcABI G c) auth "withdraw"
         [abi.bytes32 secret]]
  end.
Proof.
  unfold oneinch.ClaimSwap. rewrite emitted_bind. f_equal.
  destruct (fst (run nd h (oneinch.getAuth G c))) as [auth | e]; [| reflexivity].
  simpl. destruct (nd_Transact nd _ _ _ _ _ _); reflexivity.
Qed.

Lemma emitted_RefundSwap c escrowAddress refundKey nd h :
  emitted nd h (oneinch.RefundSwap G c escrowAddress refundKey) =
  emitted nd h (oneinch.getAuth G c) ++
  match fst (run nd h (oneinch.getAuth G c)) with
  | Err _ => []
  | Ok auth =>
      [EvTransact escrowAddress (oneinch.escrowSrcABI G c) auth "refund"
         [abi.bytes32 refundKey]]
  end.
Proof.
  unfold oneinch.RefundSwap. rewrite emitted_bind. f_equal.
  destruct (fst (run nd h (oneinch.getAuth G c))) as [auth | e]; [| reflexivity].
  simpl. destruct (nd_Transact nd _ _ _ _ _ _); reflexivity.
Qed.

Lemma getAuth_length c nd h :
  (List.length (emitted nd h (oneinch.getAuth G c)) <= 3)%nat.
Proof.
  rewrite emitted_getAuth. cbv zeta.
  destruct (nd_PendingNonceAt nd h _); [| simpl; lia].
  destruct (nd_SuggestGasPrice nd _); simpl; lia.
Qed.

End Traces.

(** C5.  Every signing context that [getAuth] builds has value zero and gas
    limit 300000, and it builds one whenever the three reads and the
    transactor succeed.  Every transaction that [CreateSwap] submits is sent
    with [params.Value] when [params.Asset] is the zero address and with zero
    otherwise, and every transaction of [ClaimSwap] and [RefundSwap] with
    zero; all of them with the gas limit 300000.  These transactions are
    sent: once the context is built, [ClaimSwap] and [RefundSwap] end with
    their transaction, submitted with the context as it is, and once the
    escrow address is resolved too, [CreateSwap] ends with the deposit, whose
    value is [params.Value] for the zero asset and zero otherwise. *)
Theorem C5_value_and_gas_limit (G : GoEthereum) (c : oneinch.XMREscrowClient G)
    (params : oneinch.SwapParams) (escrowAddress : ethcommon.Address)
    (secret refundKey : Bytes32) (nd : Node (ABI G)) (h : list (Event (ABI G))) :
  let account := crypto_PubkeyToAddress G (oneinch.privateKey G c) in
  let h1 := h ++ [EvPendingNonceAt account] in
  let h2 := h1 ++ [EvSuggestGasPrice] in
  let auth_calls := emitted nd h (oneinch.getAuth G c) in
  (match fst (run nd h (oneinch.getAuth G c)) with
   | Ok auth => bind.Value auth = Some 0 /\ bind.GasLimit auth = 300000
   | Err _ => True
   end /\
   Forall (sends_with
             (if ethcommon.is_zero (oneinch.Asset params) then oneinch.Value params else 0)
             300000)
          (emitted nd h (oneinch.CreateSwap G c params)) /\
   Forall (sends_with 0 300000) (emitted nd h (oneinch.ClaimSwap G c escrowAddress secret)) /\
   Forall (sends_with 0 300000)
          (emitted nd h (oneinch.RefundSwap G c escrowAddress refundKey))) /\
  (forall nonce gasPrice chainID base,
     nd_PendingNonceAt nd h account = Ok nonce ->
     nd_SuggestGasPrice nd h1 = Ok gasPrice ->
     nd_ChainID nd h2 = Ok chainID ->
     bind_NewKeyedTransactorWithChainID G (oneinch.privateKey G c) chainID = Ok base ->
     exists auth,
       fst (run nd h (oneinch.getAuth G c)) = Ok auth /\
       bind.Value auth = Some 0 /\ bind.GasLimit auth = 300000) /\
  (forall auth ha,
     run nd h (oneinch.getAuth G c) = (Ok auth, ha) ->
     bind.Value auth = Some 0 /\ bind.GasLimit auth = 300000 /\
     emitted nd h (oneinch.ClaimSwap G c escrowAddress secret) =
       auth_calls ++ [EvTransact escrowAddress (oneinch.escrowSrcABI G c) auth
                        "withdraw" [abi.bytes32 secret]] /\
     emitted nd h (oneinch.RefundSwap G c escrowAddress refundKey) =
       auth_calls ++ [EvTransact escrowAddress (oneinch.escrowSrcABI G c) auth
                        "refund" [abi.bytes32 refundKey]] /\
     forall resolved hc,
       run nd ha (oneinch.calculateEscrowAddress G c params) = ((resolved, None), hc) ->
       exists opts,
         emitted nd h (oneinch.CreateSwap G c params) =
           auth_calls ++ emitted nd ha (oneinch.calculateEscrowAddress G c params) ++
           [EvTransact (oneinch.factoryAddress G c) (oneinch.escrowFactoryABI G c) opts
              "deposit" (oneinch.factoryArgs G c params)] /\
         bind.Value opts =
           Some (if ethcommon.is_zero (oneinch.Asset params)
                 then oneinch.Value params else 0) /\
         bind.GasLimit opts = 300000).
Proof.
  intros account h1 h2 auth_calls.
  split; [apply value_and_gas_limit_of_calls |]. split.
  - intros nonce gasPrice chainID base Hn Hg Hc Hb.
    rewrite run_getAuth. cbv zeta. fold account. fold h1. fold h2.
    rewrite Hn, Hg, Hc, Hb. eexists. split; [reflexivity |]. split; reflexivity.
  - intros auth ha Hauth.
    assert (Hctx : bind.Value auth = Some 0 /\ bind.GasLimit auth = 300000).
    { apply getAuth_inv in Hauth as (nonce & gasPrice & chainID & base & _ & _ & ->).
      split; reflexivity. }
    destruct Hctx as [Hv Hl].
    split; [exact Hv |]. split; [exact Hl |].
    rewrite emitted_ClaimSwap, emitted_RefundSwap, emitted_CreateSwap. cbv zeta.
    rewrite Hauth. cbn [fst snd]. fold auth_calls.
    split; [reflexivity |]. split; [reflexivity |].
    intros resolved hc Hcalc. rewrite Hcalc. cbn [fst snd].
    eexists. split; [reflexivity |].
    destruct (ethcommon.is_zero (oneinch.Asset params)); split; assumption || reflexivity.
Qed.

(** On the simulated node the deposit of the native-currency scenario is
    sent with the value 10^18, and the deposit of a token swap with none. *)
Lemma C5_value_and_gas_limit_witness :
  let nd := devnet.node (devnet.healthy 1) in
  let deposit params opts :=
    EvTransact devnet.factory devnet.escrowFactoryABI opts "deposit"
      (oneinch.factoryArgs geth.lib devnet.client params) in
  (exists pre opts,
     emitted nd [] (oneinch.CreateSwap geth.lib devnet.client devnet.goodParams) =
       pre ++ [deposit devnet.goodParams opts] /\
     bind.Value opts = Some 1000000000000000000 /\ bind.GasLimit opts = 300000) /\
  (exists pre opts,
     emitted nd [] (oneinch.CreateSwap geth.lib devnet.client devnet.tokenParams) =
       pre ++ [deposit devnet.tokenParams opts] /\
     bind.Value opts = Some 0 /\ bind.GasLimit opts = 300000).
Proof.
  intros nd deposit.
  let ra := eval vm_compute in (run nd [] (oneinch.getAuth geth.lib devnet.client)) in
  lazymatch ra with
  | (Ok ?auth, ?ha) =>
      assert (Hauth : run nd [] (oneinch.getAuth geth.lib devnet.client) = (Ok auth, ha))
        by (vm_compute; reflexivity);
      split;
      [ let rc := eval vm_compute in
                    (run nd ha (oneinch.calculateEscrowAddress geth.lib devnet.client
                                  devnet.goodParams)) in
        lazymatch rc with
        | ((?a, None), ?hc) =>
            destruct (proj2 (proj2 (proj2 (proj2
                        (proj2 (proj2 (C5_value_and_gas_limit geth.lib devnet.client
                                         devnet.goodParams 0 0 0 nd []))
                           auth ha Hauth)))) a hc)
              as (opts & E & Hv & Hl); [vm_compute; reflexivity |]
        end
      | let rc := eval vm_compute in
                    (run nd ha (oneinch.calculateEscrowAddress geth.lib devnet.client
                                  devnet.tokenParams)) in
        lazymatch rc with
        | ((?a, None), ?hc) =>
            destruct (proj2 (proj2 (proj2 (proj2
                        (proj2 (proj2 (C5_value_and_gas_limit geth.lib devnet.client
                                         devnet.tokenParams 0 0 0 nd []))
                           auth ha Hauth)))) a hc)
              as (opts & E & Hv & Hl); [vm_compute; reflexivity |]
        end ]
  end.
  - eexists _, opts. rewrite app_assoc in E. split; [exact E |]. split; assumption.
  - eexists _, opts. rewrite app_assoc in E. split; [exact E |]. split; assumption.
Defined.


(** The three steps of [CreateSwap] on the simulated node, computed one after
    the other and handed to [k]. *)
Ltac run_steps nd params k :=
  let ra := eval vm_compute in (run nd [] (oneinch.getAuth geth.lib devnet.client)) in
  lazymatch ra with
  | (Ok ?auth, ?ha) =>
      let rc := eval vm_compute in
                  (run nd ha (oneinch.calculateEscrowAddress geth.lib devnet.client params)) in
      lazymatch rc with
      | ((?addr, None), ?hc) =>
          let rt := eval vm_compute in
                      (answerTo nd hc (oneinch.depositEvent geth.lib devnet.client params auth)) in
          lazymatch rt with
          | Ok ?tx => k auth ha addr hc tx
          end
      end
  end.

(** C7.  [CreateSwap] fails early without broadcasting: when [getAuth] fails
    (as it does when the nonce, gas-price or chain-id read fails), or when
    [calculateEscrowAddress] fails, it returns that error with a nil
    transaction and the zero address, and no call of the run is a
    transaction.  When both succeed and the node accepts the deposit, it
    returns the transaction together with the address resolved before the
    deposit was submitted. *)
Theorem C7_CreateSwap_early_failure (G : GoEthereum) (c : oneinch.XMREscrowClient G)
    (params : oneinch.SwapParams) (nd : Node (ABI G)) (h : list (Event (ABI G))) :
  let out := run nd h (oneinch.CreateSwap G c params) in
  let quiet := Forall (fun e => is_transact e = false)
                 (emitted nd h (oneinch.CreateSwap G c params)) in
  let account := crypto_PubkeyToAddress G (oneinch.privateKey G c) in
  let h1 := h ++ [EvPendingNonceAt account] in
  let h2 := h1 ++ [EvSuggestGasPrice] in
  (forall e,
     nd_PendingNonceAt nd h account = Err e \/
     (is_Ok (nd_PendingNonceAt nd h account) = true /\
      nd_SuggestGasPrice nd h1 = Err e) \/
     (is_Ok (nd_PendingNonceAt nd h account) = true /\
      is_Ok (nd_SuggestGasPrice nd h1) = true /\
      nd_ChainID nd h2 = Err e) ->
     fst (run nd h (oneinch.getAuth G c)) = Err e) /\
  (forall e,
     fst (run nd h (oneinch.getAuth G c)) = Err e ->
     fst out = (None, ethcommon.zero, Some e) /\ quiet) /\
  (forall auth ha escrowAddress e,
     run nd h (oneinch.getAuth G c) = (Ok auth, ha) ->
     fst (run nd ha (oneinch.calculateEscrowAddress G c params)) = (escrowAddress, Some e) ->
     fst out = (None, ethcommon.zero, Some e) /\ quiet) /\
  (forall auth ha escrowAddress hc tx,
     run nd h (oneinch.getAuth G c) = (Ok auth, ha) ->
     run nd ha (oneinch.calculateEscrowAddress G c params) = ((escrowAddress, None), hc) ->
     nd_Transact nd hc (oneinch.factoryAddress G c) (oneinch.escrowFactoryABI G c)
       (if ethcommon.is_zero (oneinch.Asset params)
        then oneinch.setValue auth (oneinch.Value params) else auth)
       "deposit" (oneinch.factoryArgs G c params) = Ok tx ->
     fst out = (Some tx, escrowAddress, None) /\
     exists before, snd out = before ++ [oneinch.depositEvent G c params auth] /\
       In (EvCallContract
             {| ethereum.To := oneinch.factoryAddress G c;
                ethereum.Data :=
                  match abi_Pack G (oneinch.escrowFactoryABI G c) "calculateEscrowAddress"
                          (oneinch.factoryArgs G c params) with
                  | Ok data => data
                  | Err _ => []
                  end |}) before).
Proof.
  intros out quiet account h1 h2.
  split; [intros e; apply getAuth_read_error |].
  split; [| split].
  - intros e Hauth. subst out quiet.
    assert (E := run_CreateSwap G c params nd h). cbv zeta in E.
    rewrite Hauth in E. rewrite E. split; [reflexivity |].
    rewrite (emitted_of_history nd h _ (emitted nd h (oneinch.getAuth G c))).
    + apply getAuth_quiet.
    + rewrite E. cbn [snd]. apply run_history.
  - intros auth ha addr e Hauth Hcalc. subst out quiet.
    assert (E := run_CreateSwap G c params nd h). cbv zeta in E.
    rewrite Hauth in E. cbn [fst snd] in E. rewrite Hcalc in E.
    rewrite E. split; [reflexivity |].
    rewrite (emitted_of_history nd h _
               (emitted nd h (oneinch.getAuth G c) ++
                emitted nd ha (oneinch.calculateEscrowAddress G c params))).
    + apply Forall_app. split; [apply getAuth_quiet | apply calculateEscrowAddress_quiet].
    + rewrite E. cbn [snd]. rewrite run_history, app_assoc.
      f_equal. rewrite <- run_history, Hauth. reflexivity.
  - intros auth ha addr hc tx Hauth Hcalc Htx. subst out.
    assert (E := run_CreateSwap G c params nd h). cbv zeta in E.
    rewrite Hauth in E. cbn [fst snd] in E. rewrite Hcalc in E. cbn [fst snd] in E.
    unfold answerTo, oneinch.depositEvent in E. rewrite Htx in E. rewrite E.
    split; [reflexivity |].
    exists hc. split; [reflexivity |].
    rewrite run_calculateEscrowAddress in Hcalc.
    destruct (abi_Pack G _ _ _) as [data | e0]; [| discriminate].
    cbv zeta in Hcalc.
    destruct (nd_CallContract nd ha _) as [reply | e0]; [| discriminate].
    destruct (abi_UnpackAddress G _ _ reply) as [a | e0]; [| discriminate].
    injection Hcalc as _ <-. apply in_or_app. right. left. reflexivity.
Qed.

(** A node that refuses the nonce read, a node whose factory rejects the
    address resolution, and a node that accepts the deposit. *)
Lemma C7_CreateSwap_early_failure_witness :
  let create := oneinch.CreateSwap geth.lib devnet.client devnet.goodParams in
  (fst (run (devnet.node devnet.down) [] create)
   = (None, ethcommon.zero, Some (Foreign "connection refused")) /\
   Forall (fun e => is_transact e = false) (emitted (devnet.node devnet.down) [] create)) /\
  (fst (run (devnet.node devnet.deaf) [] create)
   = (None, ethcommon.zero, Some (Foreign "execution reverted")) /\
   Forall (fun e => is_transact e = false) (emitted (devnet.node devnet.deaf) [] create)) /\
  exists tx escrowAddress,
    fst (run (devnet.node (devnet.healthy 1)) [] create) = (Some tx, escrowAddress, None).
Proof.
  intros create. split; [| split].
  - pose proof (C7_CreateSwap_early_failure geth.lib devnet.client devnet.goodParams
                  (devnet.node devnet.down) []) as (Hread & Hfail & _).
    refine (Hfail (Foreign "connection refused") (Hread _ (or_introl _))).
    reflexivity.
  - pose proof (C7_CreateSwap_early_failure geth.lib devnet.client devnet.goodParams
                  (devnet.node devnet.deaf) []) as (_ & _ & Hcalc & _).
    let ra := eval vm_compute in
                (run (devnet.node devnet.deaf) [] (oneinch.getAuth geth.lib devnet.client)) in
    lazymatch ra with
    | (Ok ?auth, ?ha) =>
        refine (Hcalc auth ha ethcommon.zero (Foreign "execution reverted") _ _);
        vm_compute; reflexivity
    end.
  - pose proof (C7_CreateSwap_early_failure geth.lib devnet.client devnet.goodParams
                  (devnet.node (devnet.healthy 1)) []) as (_ & _ & _ & Hok).
    run_steps (devnet.node (devnet.healthy 1)) devnet.goodParams
      ltac:(fun auth ha addr hc tx =>
              exists tx, addr; refine (proj1 (Hok auth ha addr hc tx _ _ _));
              vm_compute; reflexivity).
Defined.

(** C1, as the code has it.  Neither the construction of [SwapParams] nor
    [CreateSwap] validates the parameters: whatever the timeouts, the value
    and the claimer are, [CreateSwap] begins with the pending-nonce read on
    the node; when it fails, the error is that of one of its three steps
    ([getAuth], [calculateEscrowAddress], the deposit), and when the three
    steps succeed it returns the transaction and the resolved address. *)
Theorem C1_CreateSwap_does_not_validate (G : GoEthereum) (c : oneinch.XMREscrowClient G)
    (params : oneinch.SwapParams) (nd : Node (ABI G)) (h : list (Event (ABI G))) :
  (exists k,
     oneinch.CreateSwap G c params =
     Call (PendingNonceAt (crypto_PubkeyToAddress G (oneinch.privateKey G c))) k) /\
  (forall e,
     snd (fst (run nd h (oneinch.CreateSwap G c params))) = Some e ->
     fst (run nd h (oneinch.getAuth G c)) = Err e \/
     exists auth ha,
       run nd h (oneinch.getAuth G c) = (Ok auth, ha) /\
       (snd (fst (run nd ha (oneinch.calculateEscrowAddress G c params))) = Some e \/
        exists escrowAddress hc,
          run nd ha (oneinch.calculateEscrowAddress G c params) = ((escrowAddress, None), hc) /\
          answerTo nd hc (oneinch.depositEvent G c params auth) = Err e)) /\
  (forall auth ha escrowAddress hc tx,
     run nd h (oneinch.getAuth G c) = (Ok auth, ha) ->
     run nd ha (oneinch.calculateEscrowAddress G c params) = ((escrowAddress, None), hc) ->
     answerTo nd hc (oneinch.depositEvent G c params auth) = Ok tx ->
     fst (run nd h (oneinch.CreateSwap G c params)) = (Some tx, escrowAddress, None)).
Proof.
  split; [| split].
  - eexists. reflexivity.
  - intros e. rewrite run_CreateSwap. cbv zeta.
    destruct (run nd h (oneinch.getAuth G c)) as [[auth | e0] ha]; cbn [fst snd].
    + destruct (run nd ha (oneinch.calculateEscrowAddress G c params))
        as [[addr [e1 |]] hc] eqn:Ec; cbn [fst snd].
      * intros [= ->]. right. exists auth, ha. split; [reflexivity |].
        left. rewrite Ec. reflexivity.
      * destruct (answerTo nd hc (oneinch.depositEvent G c params auth)) as [tx | e2] eqn:Etx;
          cbn [fst snd]; [discriminate |].
        intros [= ->]. right. exists auth, ha. split; [reflexivity |].
        right. exists addr, hc. split; [exact Ec | exact Etx].
    + intros [= ->]. left. reflexivity.
  - intros auth ha addr hc tx Hauth Hcalc Htx.
    rewrite run_CreateSwap. cbv zeta. rewrite Hauth. cbn [fst snd].
    rewrite Hcalc. cbn [fst snd]. rewrite Htx. reflexivity.
Qed.

(** The parameters that break the three rules: on a node that answers every
    call the deposit is submitted, and on a node that cannot be reached the
    error is that of the signing context. *)
Lemma C1_CreateSwap_does_not_validate_witness :
  let create := oneinch.CreateSwap geth.lib devnet.client devnet.badParams in
  (exists tx escrowAddress,
     fst (run (devnet.node (devnet.healthy 1)) [] create) = (Some tx, escrowAddress, None)) /\
  fst (run (devnet.node devnet.down) [] (oneinch.getAuth geth.lib devnet.client))
  = Err (Foreign "connection refused").
Proof.
  intros create. split.
  - pose proof (C1_CreateSwap_does_not_validate geth.lib devnet.client devnet.badParams
                  (devnet.node (devnet.healthy 1)) []) as (_ & _ & Hok).
    run_steps (devnet.node (devnet.healthy 1)) devnet.badParams
      ltac:(fun auth ha addr hc tx =>
              exists tx, addr; refine (Hok auth ha addr hc tx _ _ _); vm_compute; reflexivity).
  - pose proof (C1_CreateSwap_does_not_validate geth.lib devnet.client devnet.badParams
                  (devnet.node devnet.down) []) as (_ & Herr & _).
    destruct (Herr (Foreign "connection refused")) as [H | (auth & ha & H & _)].
    + vm_compute. reflexivity.
    + exact H.
    + vm_compute in H. discriminate H.
Defined.

(** C1 as the spec states it fails here: timeout1 is not below timeout2, the
    value is zero, the claimer is the zero address, and yet [CreateSwap]
    returns no error after five calls to the node, the last of them the
    deposit. *)
Lemma C1_counterexample :
  (oneinch.Timeout1 devnet.badParams >= oneinch.Timeout2 devnet.badParams /\
   oneinch.Value devnet.badParams = 0 /\
   oneinch.Claimer devnet.badParams = ethcommon.zero) /\
  let out := run (devnet.node (devnet.healthy 1)) []
               (oneinch.CreateSwap geth.lib devnet.client devnet.badParams) in
  snd (fst out) = None /\
  option_map types.tx_to (fst (fst (fst out))) = Some devnet.factory /\
  map is_transact (snd out) = [false; false; false; false; true].
Proof.
  split; [repeat split; vm_compute; congruence |].
  repeat split; vm_compute; reflexivity.
Qed.

(** C2, as the code has it.  [ClaimSwap] and [RefundSwap] hand back the
    error of the failing step unchanged: the error of [getAuth] when the
    signing context cannot be built, and otherwise exactly what the
    submission of the transaction answered.  They classify nothing. *)
Theorem C2_errors_pass_through (G : GoEthereum) (c : oneinch.XMREscrowClient G)
    (escrowAddress : ethcommon.Address) (secret refundKey : Bytes32)
    (nd : Node (ABI G)) (h : list (Event (ABI G))) :
  (forall e,
     fst (run nd h (oneinch.getAuth G c)) = Err e ->
     fst (run nd h (oneinch.ClaimSwap G c escrowAddress secret)) = Err e /\
     fst (run nd h (oneinch.RefundSwap G c escrowAddress refundKey)) = Err e) /\
  (forall auth ha,
     run nd h (oneinch.getAuth G c) = (Ok auth, ha) ->
     fst (run nd h (oneinch.ClaimSwap G c escrowAddress secret)) =
       nd_Transact nd ha escrowAddress (oneinch.escrowSrcABI G c) auth
         "withdraw" [abi.bytes32 secret] /\
     fst (run nd h (oneinch.RefundSwap G c escrowAddress refundKey)) =
       nd_Transact nd ha escrowAddress (oneinch.escrowSrcABI G c) auth
         "refund" [abi.bytes32 refundKey]).
Proof.
  split.
  - intros e Hauth. rewrite run_ClaimSwap, run_RefundSwap. cbv zeta.
    rewrite Hauth. split; reflexivity.
  - intros auth ha Hauth. rewrite run_ClaimSwap, run_RefundSwap. cbv zeta.
    rewrite Hauth. split; reflexivity.
Qed.

(** A node on which the escrow rejects the call, and a node that cannot be
    reached. *)
Lemma C2_errors_pass_through_witness :
  fst (run (devnet.node devnet.reverting) []
         (oneinch.ClaimSwap geth.lib devnet.client 0xE5C 0xBAD))
  = Err (Foreign "execution reverted: invalid secret") /\
  fst (run (devnet.node devnet.down) []
         (oneinch.RefundSwap geth.lib devnet.client 0xE5C 0xBAD))
  = Err (Foreign "connection refused").
Proof.
  split.
  - let ra := eval vm_compute in
                (run (devnet.node devnet.reverting) []
                   (oneinch.getAuth geth.lib devnet.client)) in
    lazymatch ra with
    | (Ok ?auth, ?ha) =>
        refine (eq_trans
                  (proj1 (proj2 (C2_errors_pass_through geth.lib devnet.client 0xE5C 0xBAD
                                   0xBAD (devnet.node devnet.reverting) []) auth ha _)) _)
    end; vm_compute; reflexivity.
  - refine (proj2 (proj1 (C2_errors_pass_through geth.lib devnet.client 0xE5C 0xBAD
                            0xBAD (devnet.node devnet.down) []) _ _)).
    vm_compute. reflexivity.
Defined.

(** C2 as the spec states it fails here: the escrow rejects a claim made
    with a wrong secret, and a refund, and the client returns the error of
    the transport, which is none of the seven variants. *)
Lemma C2_counterexample :
  fst (run (devnet.node devnet.reverting) []
         (oneinch.ClaimSwap geth.lib devnet.client 0xE5C 0xBAD))
  = Err (Foreign "execution reverted: invalid secret") /\
  fst (run (devnet.node devnet.reverting) []
         (oneinch.RefundSwap geth.lib devnet.client 0xE5C 0xBAD))
  = Err (Foreign "execution reverted: invalid secret") /\
  isContractRevertError (Foreign "execution reverted: invalid secret") = false.
Proof. repeat split; vm_compute; reflexivity. Qed.

(** ** The loaders of the escrow addresses (C8) *)

Lemma IsHexAddress_empty (s : string) :
  common.is_empty s = true -> ethcommon.IsHexAddress (common.ensure0x s) = false.
Proof. destruct s; [reflexivity | discriminate]. Qed.

Lemma Getenv_unset (env : gmap string string) (key : string) :
  env !! key = None -> common.Getenv env key = EmptyString.
Proof. intros H. unfold common.Getenv. rewrite H. reflexivity. Qed.

(** C8.  The strict loader returns an error (and zero addresses) when either
    variable is unset or, with 0x prepended if it does not start with it, is
    not a well-formed hex address; otherwise it returns the two addresses
    parsed from the normalised strings and no error.  The fallback loader has
    no error result: it returns the zero addresses in the first case and the
    strict loader's addresses in the second. *)
Theorem C8_loaders (env : gmap string string) :
  let f := common.ensure0x (common.Getenv env common.escrowFactoryEnvVar) in
  let a := common.ensure0x (common.Getenv env common.escrowAdapterEnvVar) in
  (env !! common.escrowFactoryEnvVar = None \/
   env !! common.escrowAdapterEnvVar = None \/
   ethcommon.IsHexAddress f = false \/
   ethcommon.IsHexAddress a = false ->
   (exists e, common.GetEscrowAddressesFromEnv env = (ethcommon.zero, ethcommon.zero, Some e)) /\
   common.GetEscrowAddressesWithFallback env = (ethcommon.zero, ethcommon.zero)) /\
  (ethcommon.IsHexAddress f = true ->
   ethcommon.IsHexAddress a = true ->
   common.GetEscrowAddressesFromEnv env =
     (ethcommon.HexToAddress f, ethcommon.HexToAddress a, None) /\
   common.GetEscrowAddressesWithFallback env =
     (ethcommon.HexToAddress f, ethcommon.HexToAddress a)) /\
  common.GetEscrowAddressesWithFallback env =
    match common.GetEscrowAddressesFromEnv env with
    | (_, _, Some _) => (ethcommon.zero, ethcommon.zero)
    | (factoryAddr, adapterAddr, None) => (factoryAddr, adapterAddr)
    end.
Proof.
  intros f a.
  assert (Hfallback :
    common.GetEscrowAddressesWithFallback env =
    match common.GetEscrowAddressesFromEnv env with
    | (_, _, Some _) => (ethcommon.zero, ethcommon.zero)
    | (factoryAddr, adapterAddr, None) => (factoryAddr, adapterAddr)
    end).
  { unfold common.GetEscrowAddressesWithFallback.
    destruct (common.GetEscrowAddressesFromEnv env) as [[fa aa] [e |]]; reflexivity. }
  match goal with
  | |- ?A /\ ?B /\ _ =>
      cut (A /\ B); [intros [HA HB]; exact (conj HA (conj HB Hfallback)) |]
  end.
  clear Hfallback.
  unfold common.GetEscrowAddressesWithFallback, common.GetEscrowAddressesFromEnv.
  cbv zeta. fold f. fold a.
  pose proof (IsHexAddress_empty (common.Getenv env common.escrowFactoryEnvVar)) as Hf0.
  pose proof (IsHexAddress_empty (common.Getenv env common.escrowAdapterEnvVar)) as Ha0.
  fold f in Hf0. fold a in Ha0.
  split.
  - intros Hbad.
    assert (Hbad' : ethcommon.IsHexAddress f = false \/ ethcommon.IsHexAddress a = false).
    { destruct Hbad as [H | [H | [H | H]]]; auto.
      - left. subst f. rewrite (Getenv_unset _ _ H). reflexivity.
      - right. subst a. rewrite (Getenv_unset _ _ H). reflexivity. }
    destruct (common.is_empty (common.Getenv env common.escrowFactoryEnvVar));
      [split; eauto |].
    destruct (ethcommon.IsHexAddress f) eqn:Ef; cbn [negb]; [| split; eauto].
    destruct (common.is_empty (common.Getenv env common.escrowAdapterEnvVar));
      [split; eauto |].
    destruct (ethcommon.IsHexAddress a) eqn:Ea; cbn [negb]; [| split; eauto].
    destruct Hbad'; discriminate.
  - intros Hf Ha.
    destruct (common.is_empty (common.Getenv env common.escrowFactoryEnvVar)).
    { rewrite Hf0 in Hf by reflexivity. discriminate. }
    rewrite Hf. cbn [negb].
    destruct (common.is_empty (common.Getenv env common.escrowAdapterEnvVar)).
    { rewrite Ha0 in Ha by reflexivity. discriminate. }
    rewrite Ha. cbn [negb]. split; reflexivity.
Qed.

(** An empty environment, and one that sets the factory without the prefix
    and the adapter with it. *)
Lemma C8_loaders_witness :
  let env : gmap string string :=
    <[common.escrowFactoryEnvVar := "00000000000000000000000000000000000000fa"%string]>
      (<[common.escrowAdapterEnvVar := "0x00000000000000000000000000000000000000AD"%string]> ∅) in
  common.GetEscrowAddressesWithFallback ∅ = (ethcommon.zero, ethcommon.zero) /\
  common.GetEscrowAddressesFromEnv env = (0xfa, 0xad, None) /\
  common.GetEscrowAddressesWithFallback env = (0xfa, 0xad).
Proof.
  intros env. split; [| split].
  - refine (proj2 (proj1 (C8_loaders ∅) (or_introl _))). reflexivity.
  - refine (eq_trans (proj1 (proj1 (proj2 (C8_loaders env)) _ _)) _);
      vm_compute; reflexivity.
  - refine (eq_trans (proj2 (proj1 (proj2 (C8_loaders env)) _ _)) _);
      vm_compute; reflexivity.
Defined.

(** * Further properties of the code *)

(** ** Building the client *)

(** X1.  [InitializeEscrowClient] succeeds exactly when the constructor
    succeeds on the raw client and the key of the given [EthClient], and then
    with the same client.  Its own checks come first, so the error it wraps
    from the constructor is never one of the constructor's five argument
    errors: it is the error of one of the three ABI loaders, and every other
    failure is an unwrapped error made on the spot. *)
Theorem X1_Initialize_and_constructor (G : GoEthereum)
    (ethClient : extethclient.EthClient) (swapCreator : option contracts.SwapCreator)
    (factoryAddr adapterAddr : ethcommon.Address) :
  let init := oneinch.InitializeEscrowClient G ethClient swapCreator factoryAddr adapterAddr in
  let new := oneinch.NewXMREscrowClient G (extethclient.Raw ethClient) swapCreator
               factoryAddr adapterAddr (extethclient.PrivateKey ethClient) in
  (forall c, init = Ok c <-> new = Ok c) /\
  (forall e, init = Err e ->
     (exists msg, e = FmtErrorf msg) \/
     (exists e', e = FmtErrorfW "failed to create escrow client: " e' /\
        new = Err e' /\
        (oneinch.loadEscrowSrcABI G = Err e' \/
         oneinch.loadEscrowFactoryABI G = Err e' \/
         oneinch.loadSwapAdapterABI G = Err e'))).
Proof.
  intros init new. subst init new.
  unfold oneinch.InitializeEscrowClient, oneinch.NewXMREscrowClient.
  destruct ethClient as [raw key]; cbn [extethclient.Raw extethclient.PrivateKey].
  destruct (ethcommon.is_zero factoryAddr), (ethcommon.is_zero adapterAddr),
    swapCreator as [sc |], raw as [cl |], key as [k |];
    try (split; [intros c; split; discriminate | intros e [= <-]; left; eauto]).
  destruct (oneinch.loadEscrowSrcABI G) as [a1 | e1].
  - destruct (oneinch.loadEscrowFactoryABI G) as [a2 | e2].
    + destruct (oneinch.loadSwapAdapterABI G) as [a3 | e3].
      * split; [intros c; split; intros H; exact H | discriminate].
      * split; [intros c; split; discriminate |].
        intros e [= <-]. right. exists e3. auto.
    + split; [intros c; split; discriminate |].
      intros e [= <-]. right. exists e2. auto.
  - split; [intros c; split; discriminate |].
    intros e [= <-]. right. exists e1. auto.
Qed.

(** X2.  When the strict loader fails, for whichever variable and reason, a
    backend that takes its two addresses from the fallback loader cannot
    build the client: [CreateEscrowClientFromBackend] fails on its first
    check, with the error that names the factory address, whatever network
    client and swap registry the backend has. *)
Theorem X2_fallback_addresses_refused (G : GoEthereum) (env : gmap string string)
    (ethClient : extethclient.EthClient) (swapCreator : option contracts.SwapCreator)
    (e : error) :
  snd (common.GetEscrowAddressesFromEnv env) = Some e ->
  oneinch.CreateEscrowClientFromBackend G
    {| oneinch.ETHClient := ethClient;
       oneinch.SwapCreator := swapCreator;
       oneinch.EscrowFactoryAddr := fst (common.GetEscrowAddressesWithFallback env);
       oneinch.EscrowAdapterAddr := snd (common.GetEscrowAddressesWithFallback env) |}
  = Err (FmtErrorf "escrow factory address is required").
Proof.
  intros He. unfold common.GetEscrowAddressesWithFallback.
  destruct (common.GetEscrowAddressesFromEnv env) as [[f a] err].
  cbn [snd] in He. subst err. reflexivity.
Qed.

(** Only the adapter variable is malformed, and the error names the
    factory. *)
Lemma X2_fallback_addresses_refused_witness :
  let env : gmap string string :=
    <[common.escrowFactoryEnvVar := "0x00000000000000000000000000000000000000fa"%string]>
      (<[common.escrowAdapterEnvVar := "not an address"%string]> ∅) in
  oneinch.CreateEscrowClientFromBackend geth.lib
    {| oneinch.ETHClient :=
         {| extethclient.Raw := Some {| rawurl := "http://localhost:8545" |};
            extethclient.PrivateKey := Some devnet.key1 |};
       oneinch.SwapCreator := Some {| contracts.registry := 0x5C |};
       oneinch.EscrowFactoryAddr := fst (common.GetEscrowAddressesWithFallback env);
       oneinch.EscrowAdapterAddr := snd (common.GetEscrowAddressesWithFallback env) |}
  = Err (FmtErrorf "escrow factory address is required").
Proof.
  intros env.
  apply (X2_fallback_addresses_refused geth.lib env _ _
           (common.errFormat common.escrowAdapterEnvVar "0xnot an address")).
  vm_compute. reflexivity.
Defined.

(** X3.  The two accessors of the backend agree: [HasEscrowClient] is true
    exactly when [EscrowClient] returns a client, which is then the stored
    one; when it is false [EscrowClient] returns its error. *)
Theorem X3_backend_accessors_agree (G : GoEthereum) (b : backend.backend G) :
  (backend.HasEscrowClient G b = true <-> exists c, backend.EscrowClient G b = Ok c) /\
  (forall c, backend.EscrowClient G b = Ok c <-> backend.escrowClient G b = Some c) /\
  (backend.HasEscrowClient G b = false <->
   backend.EscrowClient G b =
   Err (FmtErrorf "escrow client not initialized, escrow addresses may not be configured")).
Proof.
  unfold backend.HasEscrowClient, backend.EscrowClient.
  destruct (backend.escrowClient G b) as [c |].
  - split; [| split].
    + split; [eauto | reflexivity].
    + intros c'. split; intros [= ->]; reflexivity.
    + split; discriminate.
  - split; [| split].
    + split; [discriminate | intros [c H]; discriminate].
    + intros c'. split; discriminate.
    + split; reflexivity.
Qed.

(** X11.  No operation of the client reads the swap registry or the adapter
    ABI that the constructor requires and stores: replacing both leaves every
    operation the same program. *)
Theorem X11_registry_and_adapter_ABI_unused (G : GoEthereum)
    (c : oneinch.XMREscrowClient G) (swapCreator : contracts.SwapCreator)
    (swapAdapterABI : ABI G) (params : oneinch.SwapParams)
    (escrowAddress : ethcommon.Address) (secret : Bytes32) :
  let c' := oneinch.Build_XMREscrowClient G
              (oneinch.client G c) (oneinch.factoryAddress G c) (oneinch.adapterAddress G c)
              swapCreator (oneinch.privateKey G c)
              (oneinch.escrowSrcABI G c) (oneinch.escrowFactoryABI G c) swapAdapterABI in
  oneinch.getAuth G c' = oneinch.getAuth G c /\
  oneinch.calculateEscrowAddress G c' params = oneinch.calculateEscrowAddress G c params /\
  oneinch.CreateSwap G c' params = oneinch.CreateSwap G c params /\
  oneinch.ClaimSwap G c' escrowAddress secret = oneinch.ClaimSwap G c escrowAddress secret /\
  oneinch.RefundSwap G c' escrowAddress secret = oneinch.RefundSwap G c escrowAddress secret /\
  oneinch.GetSwapState G c' escrowAddress = oneinch.GetSwapState G c escrowAddress.
Proof.
  destruct c. cbv zeta. repeat split.
Qed.

(** ** The strict loader *)

Lemma Getenv_insert_eq (env : gmap string string) (key v : string) :
  common.Getenv (<[key := v]> env) key = v.
Proof. unfold common.Getenv. rewrite lookup_insert_eq. reflexivity. Qed.

Lemma Getenv_insert_ne (env : gmap string string) (key key' v : string) :
  key <> key' -> common.Getenv (<[key := v]> env) key' = common.Getenv env key'.
Proof. intros H. unfold common.Getenv. rewrite lookup_insert_ne by exact H. reflexivity. Qed.

Lemma ensure0x_prefixed (s : string) :
  common.ensure0x ("0x" ++ s) = ("0x" ++ s)%string.
Proof. destruct s; reflexivity. Qed.

Lemma ensure0x_bare (s : string) :
  String.prefix "0x" s = false -> common.ensure0x s = ("0x" ++ s)%string.
Proof. intros H. unfold common.ensure0x. rewrite H. reflexivity. Qed.

Lemma is_empty_false (s : string) : s <> EmptyString -> common.is_empty s = false.
Proof. destruct s; [congruence | reflexivity]. Qed.

(** X12.  The strict loader does not tell a value written with the prefix 0x
    from the same value written without it: for a non-empty value that does
    not start with 0x, setting either variable to the value or to 0x followed
    by the value gives the same addresses and the same error, the text of
    the error included. *)
Theorem X12_prefix_makes_no_difference (env : gmap string string) (s : string) :
  s <> EmptyString ->
  String.prefix "0x" s = false ->
  common.GetEscrowAddressesFromEnv (<[common.escrowFactoryEnvVar := s]> env) =
  common.GetEscrowAddressesFromEnv (<[common.escrowFactoryEnvVar := ("0x" ++ s)%string]> env) /\
  common.GetEscrowAddressesFromEnv (<[common.escrowAdapterEnvVar := s]> env) =
  common.GetEscrowAddressesFromEnv (<[common.escrowAdapterEnvVar := ("0x" ++ s)%string]> env).
Proof.
  intros Hs Hp.
  assert (Hne : common.escrowFactoryEnvVar <> common.escrowAdapterEnvVar) by discriminate.
  assert (Hne' : common.escrowAdapterEnvVar <> common.escrowFactoryEnvVar) by discriminate.
  unfold common.GetEscrowAddressesFromEnv. cbv zeta. split.
  - rewrite !Getenv_insert_eq, !(Getenv_insert_ne _ _ _ _ Hne).
    rewrite ensure0x_prefixed, (ensure0x_bare s Hp), (is_empty_false s Hs).
    reflexivity.
  - rewrite !Getenv_insert_eq, !(Getenv_insert_ne _ _ _ _ Hne').
    rewrite ensure0x_prefixed, (ensure0x_bare s Hp), (is_empty_false s Hs).
    reflexivity.
Qed.

Lemma X12_prefix_makes_no_difference_witness :
  common.GetEscrowAddressesFromEnv
    (<[common.escrowFactoryEnvVar := "00000000000000000000000000000000000000fa"%string]> ∅) =
  common.GetEscrowAddressesFromEnv
    (<[common.escrowFactoryEnvVar := "0x00000000000000000000000000000000000000fa"%string]> ∅).
Proof.
  refine (proj1 (X12_prefix_makes_no_difference ∅
                   "00000000000000000000000000000000000000fa" _ _)).
  - discriminate.
  - reflexivity.
Defined.

(** X13.  The strict loader reports the first failure only.  When the factory
    variable is unset, empty or malformed, the result is the error about the
    factory variable (not set for an empty value, bad format with the
    normalised text otherwise), and the adapter variable is not looked at:
    setting it to anything changes nothing. *)
Theorem X13_factory_failure_hides_adapter (env : gmap string string) (v : string) :
  let f := common.Getenv env common.escrowFactoryEnvVar in
  ethcommon.IsHexAddress (common.ensure0x f) = false ->
  common.GetEscrowAddressesFromEnv env =
    (ethcommon.zero, ethcommon.zero,
     Some (if common.is_empty f then common.errNotSet common.escrowFactoryEnvVar
           else common.errFormat common.escrowFactoryEnvVar (common.ensure0x f))) /\
  common.GetEscrowAddressesFromEnv (<[common.escrowAdapterEnvVar := v]> env) =
  common.GetEscrowAddressesFromEnv env.
Proof.
  intros f Hbad.
  assert (Hne : common.escrowAdapterEnvVar <> common.escrowFactoryEnvVar) by discriminate.
  unfold common.GetEscrowAddressesFromEnv. cbv zeta.
  rewrite (Getenv_insert_ne _ _ _ _ Hne). fold f.
  destruct (common.is_empty f); [split; reflexivity |].
  rewrite Hbad. cbn [negb]. split; reflexivity.
Qed.

Lemma X13_factory_failure_hides_adapter_witness :
  let env : gmap string string := <[common.escrowFactoryEnvVar := "0xZZ"%string]> ∅ in
  common.GetEscrowAddressesFromEnv
    (<[common.escrowAdapterEnvVar := "0x00000000000000000000000000000000000000ad"%string]> env)
  = (ethcommon.zero, ethcommon.zero,
     Some (common.errFormat common.escrowFactoryEnvVar "0xZZ")).
Proof.
  intros env.
  destruct (X13_factory_failure_hides_adapter env
              "0x00000000000000000000000000000000000000ad") as [Herr Hsame].
  - vm_compute. reflexivity.
  - rewrite Hsame. refine (eq_trans Herr _). vm_compute. reflexivity.
Defined.

(** X4.  [getAuth] asks the node for the pending nonce of the account of the
    client's key, then for the gas price, then for the chain id, and for
    nothing else; it stops at the first read that fails, and it returns a
    context only after all three reads. *)
Theorem X4_getAuth_reads_in_order (G : GoEthereum) (c : oneinch.XMREscrowClient G)
    (nd : Node (ABI G)) (h : list (Event (ABI G))) :
  let account := crypto_PubkeyToAddress G (oneinch.privateKey G c) in
  let reads := [EvPendingNonceAt account; EvSuggestGasPrice; EvChainID] in
  let calls := emitted nd h (oneinch.getAuth G c) in
  (exists k, (1 <= k <= 3)%nat /\ calls = firstn k reads) /\
  (forall auth, fst (run nd h (oneinch.getAuth G c)) = Ok auth -> calls = reads) /\
  (forall e, nd_PendingNonceAt nd h account = Err e -> calls = firstn 1 reads) /\
  (forall nonce e,
     nd_PendingNonceAt nd h account = Ok nonce ->
     nd_SuggestGasPrice nd (h ++ [EvPendingNonceAt account]) = Err e ->
     calls = firstn 2 reads).
Proof.
  intros account reads calls. subst calls reads.
  rewrite emitted_getAuth. cbv zeta. fold account.
  split; [| split; [| split]].
  - destruct (nd_PendingNonceAt nd h account); [| exists 1%nat; split; [lia | reflexivity]].
    destruct (nd_SuggestGasPrice nd _);
      [exists 3%nat | exists 2%nat]; (split; [lia | reflexivity]).
  - intros auth. rewrite run_getAuth. cbv zeta. fold account.
    destruct (nd_PendingNonceAt nd h account); [| discriminate].
    destruct (nd_SuggestGasPrice nd _); [| discriminate]. reflexivity.
  - intros e ->. reflexivity.
  - intros nonce e -> ->. reflexivity.
Qed.

(** X5.  [GetSwapState] is a plain read: it needs no signing context (no
    nonce, gas-price or chain-id read, no transaction) and makes at most one
    call, a contract read sent to the escrow address with the packed
    getState call.  Of the client it uses the network handle, through which
    the read is made, and the escrow-instance ABI: the key, the factory and
    adapter addresses, the registry and the two other ABIs play no part, and
    replacing them all leaves the query the same program. *)
Theorem X5_GetSwapState_is_a_plain_read (G : GoEthereum) (c : oneinch.XMREscrowClient G)
    (factoryAddress adapterAddress : ethcommon.Address)
    (swapCreator : contracts.SwapCreator) (privateKey : ecdsa_PrivateKey)
    (escrowFactoryABI swapAdapterABI : ABI G)
    (escrowAddress : ethcommon.Address) (nd : Node (ABI G)) (h : list (Event (ABI G))) :
  let c' := oneinch.Build_XMREscrowClient G
              (oneinch.client G c) factoryAddress adapterAddress swapCreator privateKey
              (oneinch.escrowSrcABI G c) escrowFactoryABI swapAdapterABI in
  emitted nd h (oneinch.GetSwapState G c escrowAddress) =
    match abi_Pack G (oneinch.escrowSrcABI G c) "getState" [] with
    | Ok data => [EvCallContract {| ethereum.To := escrowAddress; ethereum.Data := data |}]
    | Err _ => []
    end /\
  oneinch.GetSwapState G c' escrowAddress = oneinch.GetSwapState G c escrowAddress.
Proof.
  cbv zeta. split; [apply emitted_GetSwapState | reflexivity].
Qed.

(** X6.  Results come with their zero values on error.  Whenever
    [calculateEscrowAddress] returns an error the address is the zero
    address, and whenever [GetSwapState] returns an error the state is 0.
    [CreateSwap] returns a transaction exactly when it returns no error, and
    with an error the address is the zero address, also when the address had
    been resolved and only the deposit failed. *)
Theorem X6_zero_values_on_error (G : GoEthereum) (c : oneinch.XMREscrowClient G)
    (params : oneinch.SwapParams) (escrowAddress : ethcommon.Address)
    (nd : Node (ABI G)) (h : list (Event (ABI G))) :
  match fst (run nd h (oneinch.calculateEscrowAddress G c params)) with
  | (a, Some _) => a = ethcommon.zero
  | (_, None) => True
  end /\
  match fst (run nd h (oneinch.GetSwapState G c escrowAddress)) with
  | (state, Some _) => state = 0
  | (_, None) => True
  end /\
  match fst (run nd h (oneinch.CreateSwap G c params)) with
  | (tx, a, Some _) => tx = None /\ a = ethcommon.zero
  | (tx, _, None) => tx <> None
  end.
Proof.
  split; [| split].
  - rewrite run_calculateEscrowAddress.
    destruct (abi_Pack G _ _ _); [| reflexivity]. cbv zeta.
    destruct (nd_CallContract nd h _); [| reflexivity].
    destruct (abi_UnpackAddress G _ _ _); [exact I | reflexivity].
  - rewrite run_GetSwapState.
    destruct (abi_Pack G _ _ _); [| reflexivity]. cbv zeta.
    destruct (nd_CallContract nd h _); [| reflexivity].
    destruct (abi_UnpackUint8 G _ _ _); [exact I | reflexivity].
  - rewrite run_CreateSwap. cbv zeta.
    destruct (fst (run nd h (oneinch.getAuth G c))); [| split; reflexivity].
    destruct (fst (run nd _ (oneinch.calculateEscrowAddress G c params))) as [a [e |]];
      [split; reflexivity |].
    destruct (answerTo nd _ _); [discriminate | split; reflexivity].
Qed.

Section Submissions.
Context (G : GoEthereum).
Implicit Types (c : oneinch.XMREscrowClient G) (nd : Node (ABI G)) (h : list (Event (ABI G))).

Lemma calculateEscrowAddress_length c params nd h :
  (List.length (emitted nd h (oneinch.calculateEscrowAddress G c params)) <= 1)%nat.
Proof.
  rewrite emitted_calculateEscrowAddress. destruct (abi_Pack G _ _ _); simpl; lia.
Qed.

Lemma quiet_In (l : list (Event (ABI G))) (e : Event (ABI G)) :
  Forall (fun e => is_transact e = false) l -> In e l -> is_transact e = false.
Proof.
  intros Hq Hin. rewrite List.Forall_forall in Hq. apply Hq, Hin.
Qed.

End Submissions.

(** X7.  Each of the three writing operations submits at most one
    transaction per call, as its last call to the node: [CreateSwap] after at
    most four reads, [ClaimSwap] and [RefundSwap] after at most three.  None
    of them retries or sends a second transaction. *)
Theorem X7_one_transaction_and_last (G : GoEthereum) (c : oneinch.XMREscrowClient G)
    (params : oneinch.SwapParams) (escrowAddress : ethcommon.Address)
    (secret refundKey : Bytes32) (nd : Node (ABI G)) (h : list (Event (ABI G))) :
  submits_last 4 (emitted nd h (oneinch.CreateSwap G c params)) /\
  submits_last 3 (emitted nd h (oneinch.ClaimSwap G c escrowAddress secret)) /\
  submits_last 3 (emitted nd h (oneinch.RefundSwap G c escrowAddress refundKey)).
Proof.
  pose proof (getAuth_quiet G c nd h) as Hq.
  pose proof (getAuth_length G c nd h) as Hl.
  split; [| split].
  - rewrite emitted_CreateSwap. cbv zeta.
    destruct (fst (run nd h (oneinch.getAuth G c))) as [auth | e].
    + pose proof (calculateEscrowAddress_quiet G c params nd
                    (snd (run nd h (oneinch.getAuth G c)))) as Hq'.
      pose proof (calculateEscrowAddress_length G c params nd
                    (snd (run nd h (oneinch.getAuth G c)))) as Hl'.
      rewrite app_assoc.
      eexists _, _. split; [reflexivity |]. split; [| split].
      * apply Forall_app. split; assumption.
      * rewrite length_app. lia.
      * destruct (fst (run nd _ (oneinch.calculateEscrowAddress G c params))) as [a [e |]];
          [left; reflexivity | right; eexists; split; reflexivity].
    + eexists _, _. split; [reflexivity |]. split; [exact Hq |].
      split; [lia | left; reflexivity].
  - rewrite emitted_ClaimSwap.
    eexists _, _. split; [reflexivity |]. split; [exact Hq |]. split; [exact Hl |].
    destruct (fst (run nd h (oneinch.getAuth G c)));
      [right; eexists; split; reflexivity | left; reflexivity].
  - rewrite emitted_RefundSwap.
    eexists _, _. split; [reflexivity |]. split; [exact Hq |]. split; [exact Hl |].
    destruct (fst (run nd h (oneinch.getAuth G c)));
      [right; eexists; split; reflexivity | left; reflexivity].
Qed.

(** X8.  The deposit matches the prediction.  A transaction that a run of
    [CreateSwap] submits is the deposit method of the factory ABI, sent to
    the factory address, and the call right before it is the contract read
    that resolved the escrow address: sent to the same address, with the data
    that the same ABI packs for calculateEscrowAddress from the very
    arguments of the deposit. *)
Theorem X8_deposit_matches_prediction (G : GoEthereum) (c : oneinch.XMREscrowClient G)
    (params : oneinch.SwapParams) (nd : Node (ABI G)) (h : list (Event (ABI G)))
    (contract : ethcommon.Address) (a : ABI G) (opts : bind.TransactOpts)
    (method : string) (args : list abi.Arg) :
  In (EvTransact contract a opts method args)
     (emitted nd h (oneinch.CreateSwap G c params)) ->
  contract = oneinch.factoryAddress G c /\
  a = oneinch.escrowFactoryABI G c /\
  method = "deposit"%string /\
  args = oneinch.factoryArgs G c params /\
  exists pre data,
    abi_Pack G a "calculateEscrowAddress" args = Ok data /\
    Forall (fun e => is_transact e = false) pre /\
    emitted nd h (oneinch.CreateSwap G c params) =
    pre ++ [EvCallContract {| ethereum.To := contract; ethereum.Data := data |};
            EvTransact contract a opts method args].
Proof.
  intros Hin.
  pose proof (emitted_CreateSwap G c params nd h) as E. cbv zeta in E.
  rewrite E in Hin. apply in_app_or in Hin as [Hin | Hin].
  { apply (quiet_In G _ _ (getAuth_quiet G c nd h)) in Hin. discriminate. }
  destruct (fst (run nd h (oneinch.getAuth G c))) as [auth | e]; [| destruct Hin].
  apply in_app_or in Hin as [Hin | Hin].
  { apply (quiet_In G _ _ (calculateEscrowAddress_quiet G c params nd _)) in Hin.
    discriminate. }
  rewrite emitted_calculateEscrowAddress in E.
  rewrite run_calculateEscrowAddress in Hin, E.
  destruct (abi_Pack G (oneinch.escrowFactoryABI G c) "calculateEscrowAddress"
              (oneinch.factoryArgs G c params)) as [data | e] eqn:Epack;
    [| destruct Hin].
  cbv zeta in Hin, E.
  destruct (nd_CallContract nd _ _) as [reply | e]; [| destruct Hin].
  destruct (abi_UnpackAddress G _ _ reply) as [addr | e]; [| destruct Hin].
  cbn [fst] in Hin, E. destruct Hin as [Hin | []].
  unfold oneinch.depositEvent in Hin, E. injection Hin as <- <- <- <- <-.
  repeat split; try reflexivity.
  exists (emitted nd h (oneinch.getAuth G c)), data.
  split; [exact Epack |]. split; [apply getAuth_quiet |]. exact E.
Qed.

(** On the simulated node the run ends with the read of the factory and the
    deposit. *)
Lemma X8_deposit_matches_prediction_witness :
  exists pre data tx,
    Forall (fun e => is_transact e = false) pre /\
    emitted (devnet.node (devnet.healthy 1)) []
      (oneinch.CreateSwap geth.lib devnet.client devnet.goodParams) =
    pre ++ [EvCallContract {| ethereum.To := devnet.factory; ethereum.Data := data |}; tx].
Proof.
  let ev := eval vm_compute in
              (List.last (emitted (devnet.node (devnet.healthy 1)) []
                            (oneinch.CreateSwap geth.lib devnet.client devnet.goodParams))
                         EvChainID) in
  lazymatch ev with
  | EvTransact ?t ?a ?o ?m ?args =>
      destruct (X8_deposit_matches_prediction geth.lib devnet.client devnet.goodParams
                  (devnet.node (devnet.healthy 1)) [] t a o m args)
        as (Ht & _ & _ & _ & pre & data & _ & Hq & E);
      [ vm_compute; do 4 right; left; reflexivity
      | exists pre, data, (EvTransact t a o m args); split; [exact Hq | exact E] ]
  end.
Defined.

(** X9.  [ClaimSwap] and [RefundSwap] go straight to the transaction: after
    the signing context, and only if it was built, one call of withdraw
    (of refund) on the escrow-instance ABI at the escrow address, carrying
    the secret (the refund key) as its single argument.  No contract read is
    made: neither the state of the escrow nor the commitment is looked at
    before the transaction is submitted. *)
Theorem X9_claim_and_refund_submit_unchecked (G : GoEthereum)
    (c : oneinch.XMREscrowClient G) (escrowAddress : ethcommon.Address)
    (secret refundKey : Bytes32) (nd : Node (ABI G)) (h : list (Event (ABI G))) :
  let auth_calls := emitted nd h (oneinch.getAuth G c) in
  let no_read (e : Event (ABI G)) :=
    match e with EvCallContract _ => False | _ => True end in
  emitted nd h (oneinch.ClaimSwap G c escrowAddress secret) =
    auth_calls ++
    match fst (run nd h (oneinch.getAuth G c)) with
    | Ok auth => [EvTransact escrowAddress (oneinch.escrowSrcABI G c) auth "withdraw"
                    [abi.bytes32 secret]]
    | Err _ => []
    end /\
  emitted nd h (oneinch.RefundSwap G c escrowAddress refundKey) =
    auth_calls ++
    match fst (run nd h (oneinch.getAuth G c)) with
    | Ok auth => [EvTransact escrowAddress (oneinch.escrowSrcABI G c) auth "refund"
                    [abi.bytes32 refundKey]]
    | Err _ => []
    end /\
  Forall no_read (emitted nd h (oneinch.ClaimSwap G c escrowAddress secret)) /\
  Forall no_read (emitted nd h (oneinch.RefundSwap G c escrowAddress refundKey)).
Proof.
  intros auth_calls no_read.
  assert (Hauth : Forall no_read auth_calls).
  { subst auth_calls. rewrite emitted_getAuth. cbv zeta.
    destruct (nd_PendingNonceAt nd h _); [| repeat constructor].
    destruct (nd_SuggestGasPrice nd _); repeat constructor. }
  split; [apply emitted_ClaimSwap |]. split; [apply emitted_RefundSwap |].
  rewrite emitted_ClaimSwap, emitted_RefundSwap. fold auth_calls.
  split; (apply Forall_app; split; [exact Hauth |]);
    destruct (fst (run nd h (oneinch.getAuth G c))); repeat constructor.
Qed.

Lemma quiet_signed {abiT : Type} (n : Z) (l : list (Event abiT)) :
  Forall (fun e => is_transact e = false) l -> Forall (signed_with_nonce n) l.
Proof.
  apply List.Forall_impl. intros [] H; try exact I. discriminate H.
Qed.

(** X10.  The client keeps no nonce of its own.  The transaction of a
    [CreateSwap], [ClaimSwap] or [RefundSwap] call is signed with the
    [int64] of the pending nonce that the node answers at the start of that
    call; so two calls to which the node answers the same pending nonce (the
    second made before the first transaction is counted) submit with the
    same nonce. *)
Theorem X10_nonce_is_the_nodes_answer (G : GoEthereum) (c : oneinch.XMREscrowClient G)
    (params : oneinch.SwapParams) (escrowAddress : ethcommon.Address)
    (secret refundKey : Bytes32) (nd : Node (ABI G)) (h : list (Event (ABI G)))
    (nonce : Z) :
  nd_PendingNonceAt nd h (crypto_PubkeyToAddress G (oneinch.privateKey G c)) = Ok nonce ->
  Forall (signed_with_nonce (int64 nonce)) (emitted nd h (oneinch.CreateSwap G c params)) /\
  Forall (signed_with_nonce (int64 nonce))
    (emitted nd h (oneinch.ClaimSwap G c escrowAddress secret)) /\
  Forall (signed_with_nonce (int64 nonce))
    (emitted nd h (oneinch.RefundSwap G c escrowAddress refundKey)).
Proof.
  intros Hnonce.
  pose proof (quiet_signed (int64 nonce) _ (getAuth_quiet G c nd h)) as Hq.
  assert (Hauth : forall auth ha,
            run nd h (oneinch.getAuth G c) = (Ok auth, ha) ->
            bind.Nonce auth = Some (int64 nonce)).
  { intros auth ha E.
    apply getAuth_inv in E as (n & gasPrice & chainID & base & Hn & _ & ->).
    rewrite Hnonce in Hn. injection Hn as <-. reflexivity. }
  rewrite emitted_CreateSwap, emitted_ClaimSwap, emitted_RefundSwap. cbv zeta.
  destruct (run nd h (oneinch.getAuth G c)) as [[auth | e] ha] eqn:E; cbn [fst snd].
  - specialize (Hauth auth ha eq_refl).
    split; [| split]; (apply Forall_app; split; [exact Hq |]).
    + apply Forall_app. split.
      * apply quiet_signed, calculateEscrowAddress_quiet.
      * destruct (fst (run nd ha (oneinch.calculateEscrowAddress G c params)))
          as [a [e |]]; [constructor |].
        constructor; [| constructor]. unfold oneinch.depositEvent, signed_with_nonce.
        destruct (ethcommon.is_zero (oneinch.Asset params)); exact Hauth.
    + constructor; [exact Hauth | constructor].
    + constructor; [exact Hauth | constructor].
  - split; [| split]; (apply Forall_app; split; [exact Hq | constructor]).
Qed.

(** A claim and, from the history it leaves, a refund on the simulated node,
    which goes on answering the pending nonce 7: both transactions are
    signed with the nonce 7. *)
Lemma X10_nonce_is_the_nodes_answer_witness :
  let nd := devnet.node (devnet.healthy 1) in
  let claim := oneinch.ClaimSwap geth.lib devnet.client 0xE5C 0x5EC in
  let refund := oneinch.RefundSwap geth.lib devnet.client 0xE5C 0x4EF in
  Forall (signed_with_nonce 7) (emitted nd [] claim) /\
  Forall (signed_with_nonce 7) (emitted nd (snd (run nd [] claim)) refund).
Proof.
  intros nd claim refund. split.
  - refine (proj1 (proj2 (X10_nonce_is_the_nodes_answer geth.lib devnet.client
                            devnet.goodParams 0xE5C 0x5EC 0x4EF nd [] 7 _))).
    reflexivity.
  - refine (proj2 (proj2 (X10_nonce_is_the_nodes_answer geth.lib devnet.client
                            devnet.goodParams 0xE5C 0x5EC 0x4EF nd _ 7 _))).
    reflexivity.
Defined.


(** X14.  A signing context is made of the node's answers and nothing else:
    when [getAuth] returns one, the three reads succeeded, the gas price is
    the price the node suggested, unchanged, and sender and signer are those
    of the transactor keyed for the chain id that the node reported. *)
Theorem X14_signing_context_from_answers (G : GoEthereum) (c : oneinch.XMREscrowClient G)
    (nd : Node (ABI G)) (h : list (Event (ABI G))) (auth : bind.TransactOpts) :
  let account := crypto_PubkeyToAddress G (oneinch.privateKey G c) in
  fst (run nd h (oneinch.getAuth G c)) = Ok auth ->
  exists nonce gasPrice chainID base,
    nd_PendingNonceAt nd h account = Ok nonce /\
    nd_SuggestGasPrice nd (h ++ [EvPendingNonceAt account]) = Ok gasPrice /\
    nd_ChainID nd ((h ++ [EvPendingNonceAt account]) ++ [EvSuggestGasPrice]) = Ok chainID /\
    bind_NewKeyedTransactorWithChainID G (oneinch.privateKey G c) chainID = Ok base /\
    bind.GasPrice auth = Some gasPrice /\
    bind.From auth = bind.From base /\
    bind.Signer auth = bind.Signer base.
Proof.
  intros account. rewrite run_getAuth. cbv zeta. fold account.
  destruct (nd_PendingNonceAt nd h account) as [nonce |]; [| discriminate].
  destruct (nd_SuggestGasPrice nd _) as [gasPrice |]; [| discriminate].
  destruct (nd_ChainID nd _) as [chainID |]; [| discriminate].
  destruct (bind_NewKeyedTransactorWithChainID G _ chainID) as [base |] eqn:E;
    [| discriminate].
  intros [= <-]. exists nonce, gasPrice, chainID, base. repeat split; assumption.
Qed.

Lemma X14_signing_context_from_answers_witness :
  exists auth,
    fst (run (devnet.node (devnet.healthy 1)) []
           (oneinch.getAuth geth.lib devnet.client)) = Ok auth /\
    bind.GasPrice auth = Some 1000000000 /\
    bind.Signer auth = (devnet.key1, 1337).
Proof.
  let ra := eval vm_compute in
              (fst (run (devnet.node (devnet.healthy 1)) []
                      (oneinch.getAuth geth.lib devnet.client))) in
  lazymatch ra with
  | Ok ?auth =>
      exists auth;
      assert (Hrun : fst (run (devnet.node (devnet.healthy 1)) []
                            (oneinch.getAuth geth.lib devnet.client)) = Ok auth)
        by (vm_compute; reflexivity);
      destruct (X14_signing_context_from_answers geth.lib devnet.client
                  (devnet.node (devnet.healthy 1)) [] auth Hrun)
        as (nonce & gasPrice & chainID & base & _ & Hg & Hc & Hb & Hgp & _ & Hs);
      split; [exact Hrun |]; split
  end.
  - rewrite Hgp. vm_compute in Hg. injection Hg as <-. reflexivity.
  - rewrite Hs. vm_compute in Hc. injection Hc as <-.
    vm_compute in Hb. injection Hb as <-. reflexivity.
Defined.

Lemma substring_all (s : string) : String.substring 0 (String.length s) s = s.
Proof. induction s as [| a s IH]; simpl; [reflexivity | now rewrite IH]. Qed.

Lemma strip0x_prefixed (t : string) :
  ethcommon.strip0x (String "0" (String "x" t)) = t.
Proof.
  unfold ethcommon.strip0x.
  change (ethcommon.has0xPrefix (String "0" (String "x" t))) with true. cbv iota.
  cbn [String.length Nat.sub String.substring]. rewrite Nat.sub_0_r. apply substring_all.
Qed.

Lemma IsHexAddress_upper_prefix (s : string) :
  common.ensure0x ("0X" ++ s) = ("0x0X" ++ s)%string /\
  ethcommon.IsHexAddress ("0x0X" ++ s) = false.
Proof.
  split; [reflexivity |].
  change ("0x0X" ++ s)%string with (String "0" (String "x" (String "0" (String "X" s)))).
  unfold ethcommon.IsHexAddress. rewrite strip0x_prefixed.
  unfold ethcommon.isHex. cbn [ethcommon.all_hex].
  change (ethcommon.isHexCharacter "X") with false.
  rewrite andb_false_l, !andb_false_r. reflexivity.
Qed.

(** X16.  A value that starts with the upper-case prefix 0X is always
    rejected by the strict loader, although such a value can be a well-formed
    hex address: the loader looks for the lower-case prefix only, puts 0x in
    front, and the result is malformed.  This holds for the factory variable
    and, when the factory variable is fine, for the adapter variable. *)
Theorem X16_upper_case_prefix_rejected (env : gmap string string) (s : string) :
  (common.Getenv env common.escrowFactoryEnvVar = ("0X" ++ s)%string ->
   common.GetEscrowAddressesFromEnv env =
   (ethcommon.zero, ethcommon.zero,
    Some (common.errFormat common.escrowFactoryEnvVar ("0x0X" ++ s)))) /\
  (ethcommon.IsHexAddress
     (common.ensure0x (common.Getenv env common.escrowFactoryEnvVar)) = true ->
   common.Getenv env common.escrowAdapterEnvVar = ("0X" ++ s)%string ->
   common.GetEscrowAddressesFromEnv env =
   (ethcommon.zero, ethcommon.zero,
    Some (common.errFormat common.escrowAdapterEnvVar ("0x0X" ++ s)))).
Proof.
  destruct (IsHexAddress_upper_prefix s) as [Hens Hbad].
  unfold common.GetEscrowAddressesFromEnv. cbv zeta. split.
  - intros ->. cbn [common.is_empty String.app]. fold (String.app "0X" s).
    rewrite Hens, Hbad. reflexivity.
  - intros Hf ->.
    destruct (common.is_empty (common.Getenv env common.escrowFactoryEnvVar)) eqn:E.
    { rewrite (IsHexAddress_empty _ E) in Hf. discriminate. }
    rewrite Hf. cbn [negb common.is_empty String.app]. fold (String.app "0X" s).
    rewrite Hens, Hbad. reflexivity.
Qed.

(** The value is a well-formed address for go-ethereum, and the loader
    refuses it. *)
Lemma X16_upper_case_prefix_rejected_witness :
  ethcommon.IsHexAddress "0X00000000000000000000000000000000000000fa" = true /\
  common.GetEscrowAddressesFromEnv
    (<[common.escrowFactoryEnvVar := "0X00000000000000000000000000000000000000fa"%string]> ∅)
  = (ethcommon.zero, ethcommon.zero,
     Some (common.errFormat common.escrowFactoryEnvVar
             "0x0X00000000000000000000000000000000000000fa")).
Proof.
  split; [reflexivity |].
  refine (proj1 (X16_upper_case_prefix_rejected _
                   "00000000000000000000000000000000000000fa") _).
  apply Getenv_insert_eq.
Defined.

(** ** No call after a failure *)
Section FailFast.
Context {abiT : Type}.

Lemma StopsAtFailure_bind {A B : Type} (errA : A -> option error) (errB : B -> option error)
    (m : Net abiT A) (f : A -> Net abiT B) :
  StopsAtFailure errA m ->
  (forall a e, errA a = Some e -> exists b, f a = Ret b /\ errB b = Some e) ->
  (forall a, StopsAtFailure errB (f a)) ->
  StopsAtFailure errB (bind m f).
Proof.
  intros Hm Hret Hf. induction Hm as [a | X c k Hfail _ IH]; simpl.
  - apply Hf.
  - constructor; [| exact IH].
    intros x e He. destruct (Hfail x e He) as (a & -> & Ha). simpl.
    apply Hret, Ha.
Qed.

End FailFast.

(** One call whose continuation returns at once on an error and goes on
    otherwise. *)
Ltac stops_step :=
  constructor;
  [ intros [? | ?] ? He; simpl in He;
    [ discriminate He | injection He as <-; eexists; split; reflexivity ]
  | intros [? | ?]; simpl; [ | constructor ] ].

(** X17.  Every operation stops at the first call to the node that fails:
    whichever call it is, when the answer is an error the operation makes no
    further call and returns at once, with that very error.  There is no
    retry and no fallback in any of the six. *)
Theorem X17_stops_at_first_failure (G : GoEthereum) (c : oneinch.XMREscrowClient G)
    (params : oneinch.SwapParams) (escrowAddress : ethcommon.Address)
    (secret refundKey : Bytes32) :
  StopsAtFailure err_of_result (oneinch.getAuth G c) /\
  StopsAtFailure snd (oneinch.calculateEscrowAddress G c params) /\
  StopsAtFailure snd (oneinch.GetSwapState G c escrowAddress) /\
  StopsAtFailure snd (oneinch.CreateSwap G c params) /\
  StopsAtFailure err_of_result (oneinch.ClaimSwap G c escrowAddress secret) /\
  StopsAtFailure err_of_result (oneinch.RefundSwap G c escrowAddress refundKey).
Proof.
  assert (Hauth : StopsAtFailure err_of_result (oneinch.getAuth G c)).
  { unfold oneinch.getAuth, call; simpl.
    stops_step. stops_step. stops_step.
    destruct (bind_NewKeyedTransactorWithChainID G _ _); constructor. }
  assert (Hcalc : StopsAtFailure snd (oneinch.calculateEscrowAddress G c params)).
  { unfold oneinch.calculateEscrowAddress, call.
    destruct (abi_Pack G _ _ _); simpl; [| constructor].
    stops_step. destruct (abi_UnpackAddress G _ _ _); constructor. }
  split; [exact Hauth |]. split; [exact Hcalc |]. split; [| split; [| split]].
  - unfold oneinch.GetSwapState, call.
    destruct (abi_Pack G _ _ _); simpl; [| constructor].
    stops_step. destruct (abi_UnpackUint8 G _ _ _); constructor.
  - unfold oneinch.CreateSwap.
    apply (StopsAtFailure_bind err_of_result snd _ _ Hauth).
    + intros [auth | e0] e [= <-]. eexists. split; reflexivity.
    + intros [auth | e0]; [| constructor].
      apply (StopsAtFailure_bind snd snd _ _ Hcalc).
      * intros [a [e0 |]] e [= <-]. eexists. split; reflexivity.
      * intros [a [e0 |]]; [constructor |]. unfold call; simpl. stops_step. constructor.
  - unfold oneinch.ClaimSwap.
    apply (StopsAtFailure_bind err_of_result err_of_result _ _ Hauth).
    + intros [auth | e0] e [= <-]. eexists. split; reflexivity.
    + intros [auth | e0]; [| constructor]. unfold call; simpl. stops_step. constructor.
  - unfold oneinch.RefundSwap.
    apply (StopsAtFailure_bind err_of_result err_of_result _ _ Hauth).
    + intros [auth | e0] e [= <-]. eexists. split; reflexivity.
    + intros [auth | e0]; [| constructor]. unfold call; simpl. stops_step. constructor.
Qed.
